(** * httpdump: the orchestration loop and the fast connection handler

    A shallow embedding of [main.go] (options, [run], [loop]) and of the
    fast handler ([FastConnectionHandler], [fastTrafficHandler]) together
    with the properties of the design document that concern them.

    Conventions.
    - Go integers are [Z]; a fixed width is written out where the code
      relies on it ([uint16] truncation, the [int32] counter).
    - Go strings are [string]; [+:+] is concatenation.
    - Effects (standard error, the sender, the assembler, reads of a body)
      are recorded in an explicit trace, in program order.
    - A [for { ... }] loop whose exit depends on its input is a fixpoint on
      that input when the input is a list, and on a fuel otherwise; a result
      [None] means that the fuel ran out, never that the code returned. *)

From Stdlib Require Import ZArith Lia Bool Ascii String DecimalString.
From stdpp Require Import base option list sorting strings gmap.

Local Open Scope Z_scope.

(** ** Go library functions used by the code *)

Module Go.

(** [strings.Contains(s, substr)]: [substr] occurs somewhere in [s]. *)
Fixpoint Contains (s substr : string) : bool :=
  String.prefix substr s ||
  match s with
  | EmptyString => false
  | String _ s' => Contains s' substr
  end.

(** The verb [%d] (and [%v] on an integer): decimal, with a sign. *)
Definition itoa (z : Z) : string := NilZero.string_of_int (Z.to_int z).

(** [fmt.Sprintln]: operands separated by one space, then a newline. *)
Fixpoint joinSpace (a : list string) : string :=
  match a with
  | [] => ""
  | [x] => x
  | x :: rest => x +:+ " " +:+ joinSpace rest
  end.

Definition newline : string := String (ascii_of_nat 10) EmptyString.

Definition Sprintln (a : list string) : string := joinSpace a +:+ newline.

(** [io.EOF], [io.ErrUnexpectedEOF] and every other error value. *)
Inductive error : Type :=
| EOF
| ErrUnexpectedEOF
| ErrOther (msg : string).

Definition Error (e : error) : string :=
  match e with
  | EOF => "EOF"
  | ErrUnexpectedEOF => "unexpected EOF"
  | ErrOther msg => msg
  end.

(** Conversion [uint16(x)] of an unsigned integer. *)
Definition uint16 (x : Z) : Z := x mod 65536.

(** Conversion to [int32]: two's complement wrap-around. *)
Definition int32 (x : Z) : Z := (x + 2147483648) mod 4294967296 - 2147483648.

End Go.

(** Wall-clock instants ([time.Time]), in nanoseconds. *)
Definition Time : Type := Z.

(** ** main.go *)

(** Modelled from the spec: [IntSet] (its file is not among the sources):
    a union of inclusive ranges with a membership predicate. *)
Definition IntSet : Type := list (Z * Z).

Definition IntSet_Contains (s : IntSet) (i : Z) : bool :=
  existsb (fun r => (fst r <=? i) && (i <=? snd r)) s.

Record Option : Type := {
  Level : string;
  Input : string;
  Ip : string;
  Port : Z;            (* uint *)
  Chan : Z;            (* uint *)
  OutChan : Z;         (* uint *)
  Host : string;
  Uri : string;
  Method : string;
  Resp : bool;
  Status : IntSet;
  Force : bool;
  Curl : bool;
  Human : bool;
  DumpBody : bool;
  Fast : bool;
  Output : string;
  Idle : Z             (* time.Duration *)
}.

(** *** Packets, as far as [loop] looks into them *)

Inductive LayerType : Type :=
| LayerTypeTCP
| LayerTypeUDP
| LayerTypeSCTP
| LayerTypeOther (n : Z).

Definition LayerType_eqb (a b : LayerType) : bool :=
  match a, b with
  | LayerTypeTCP, LayerTypeTCP => true
  | LayerTypeUDP, LayerTypeUDP => true
  | LayerTypeSCTP, LayerTypeSCTP => true
  | LayerTypeOther n, LayerTypeOther m => n =? m
  | _, _ => false
  end.

Record TCP : Type := {
  SrcPort : Z;
  DstPort : Z;
  Seq : Z;
  SYN : bool;
  FIN : bool;
  RST : bool;
  Payload : string
}.

(** A transport layer is a [*layers.TCP] exactly when its layer type is
    [LayerTypeTCP]. *)
Inductive TransportLayer : Type :=
| TransportTCP (tcp : TCP)
| TransportUDP
| TransportSCTP
| TransportOther (n : Z).

Definition TransportLayer_LayerType (t : TransportLayer) : LayerType :=
  match t with
  | TransportTCP _ => LayerTypeTCP
  | TransportUDP => LayerTypeUDP
  | TransportSCTP => LayerTypeSCTP
  | TransportOther n => LayerTypeOther n
  end.

Record Flow : Type := { flowSrc : string; flowDst : string }.

Record NetworkLayer : Type := { NetworkFlow : Flow }.

Record Packet : Type := {
  pNetworkLayer : option NetworkLayer;
  pTransportLayer : option TransportLayer;
  pTimestamp : Time          (* p.Metadata().Timestamp *)
}.

(** What one turn of the [select] in [loop] receives. *)
Inductive SelectEvent : Type :=
| RecvPacket (p : option Packet)   (* [None] is the nil packet *)
| Tick (now : Time)                (* the ticker fired; [now] is time.Now() *)
| CtxDone.

(** The calls [loop] makes on the assembler. *)
Inductive AssemblerCall : Type :=
| assemble (flow : Flow) (tcp : TCP) (timestamp : Time)
| flushOlderThan (threshold : Time).

Inductive LoopStatus : Type :=
| Returned      (* the function returned *)
| Waiting       (* blocked in [select]: the events given are used up *)
| Panicked.     (* a failed type assertion *)

Definition isNil {A : Type} (x : option A) : bool :=
  match x with None => true | Some _ => false end.

Fixpoint loop (events : list SelectEvent) (idle : Z)
    (calls : list AssemblerCall) : list AssemblerCall * LoopStatus :=
  match events with
  | [] => (calls, Waiting)
  | RecvPacket None :: _ => (calls, Returned)
  | RecvPacket (Some p) :: rest =>
      let n := pNetworkLayer p in
      let t := pTransportLayer p in
      if isNil n || isNil t ||
         negb (LayerType_eqb
                 (from_option TransportLayer_LayerType LayerTypeTCP t)
                 LayerTypeTCP)
      then loop rest idle calls
      else
        match n, t with
        | Some n', Some (TransportTCP tcp) =>
            loop rest idle
              (calls ++ [assemble (NetworkFlow n') tcp (pTimestamp p)])
        | _, _ => (calls, Panicked)
        end
  | Tick now :: rest => loop rest idle (calls ++ [flushOlderThan (now - idle)])
  | CtxDone :: _ => (calls, Returned)
  end.

(** The three ways in which a packet is not a TCP/IP packet. *)
Definition notTCPIP (p : Packet) : Prop :=
  pNetworkLayer p = None \/
  pTransportLayer p = None \/
  exists t, pTransportLayer p = Some t /\
            TransportLayer_LayerType t <> LayerTypeTCP.

(** *** [Option.run] *)

(** What [run] does to the outside, in order. *)
Inductive MainEffect : Type :=
| createPacketsChan (input host ip : string) (port : Z)
| newPrinter (output : string) (outChan : Z)
| newTCPAssembler (fast human : bool) (chanSize : Z) (filterIP : string)
    (filterPort : Z)
| assemblerCall (c : AssemblerCall)
| finishAll
| printerFinish.

(** The surroundings of one run: whether the packet source opens, and what
    the [select] of [loop] receives afterwards. *)
Record RunEnv : Type := {
  openError : option Go.error;
  selectEvents : list SelectEvent
}.

(** The result: the effects so far and, when [run] returns, its error. *)
Record RunResult : Type := {
  effects : list MainEffect;
  returned : option (option Go.error)
}.

Definition run (env : RunEnv) (o : Option) : RunResult :=
  if Port o >? 65536 then
    {| effects := [];
       returned := Some (Some (Go.ErrOther
                     ("ignored invalid port " +:+ Go.itoa (Port o)))) |}
  else
    let opened := [createPacketsChan (Input o) (Host o) (Ip o) (Port o)] in
    match openError env with
    | Some err => {| effects := opened; returned := Some (Some err) |}
    | None =>
        let setup :=
          opened ++
          [newPrinter (Output o) (OutChan o);
           newTCPAssembler (Fast o) (Human o) (Chan o) (Ip o)
             (Go.uint16 (Port o))] in
        let '(calls, status) := loop (selectEvents env) (Idle o) [] in
        match status with
        | Returned =>
            {| effects := setup ++ map assemblerCall calls ++
                          [finishAll; printerFinish];
               returned := Some None |}
        | _ => {| effects := setup ++ map assemblerCall calls;
                  returned := None |}
        end
    end.


(** ** The fast handler *)

(** Modelled from the spec: [Endpoint] and [ConnectionKey] (declared outside
    the sources at hand): a pair (ip, port) rendered as [ip:port], and the
    ordered pair of the two endpoints of one direction. *)
Record Endpoint : Type := { ip : string; port : Z }.

Definition Endpoint_String (e : Endpoint) : string :=
  ip e +:+ ":" +:+ Go.itoa (port e).

Record ConnectionKey : Type := { src : Endpoint; dst : Endpoint }.

(** Modelled from the spec: [wildcardMatch] (declared outside the sources at
    hand): [*] stands for zero or more characters, [?] for exactly one, and
    the pattern is anchored at both ends. *)
Fixpoint wildcardMatch (s pattern : string) {struct pattern} : bool :=
  match pattern with
  | EmptyString => match s with EmptyString => true | _ => false end
  | String c pattern' =>
      if Ascii.eqb c "*" then
        (fix star (s : string) : bool :=
           wildcardMatch s pattern' ||
           match s with
           | EmptyString => false
           | String _ s' => star s'
           end) s
      else
        match s with
        | EmptyString => false
        | String d s' =>
            (Ascii.eqb c "?" || Ascii.eqb c d) && wildcardMatch s' pattern'
        end
  end.

(** Modelled from the spec: [Counter] (declared outside the sources at
    hand): an atomic 32-bit incrementer; [Incr] adds one and returns the new
    value, an [int32] as the [seq] parameter of the printers requires. *)
Definition Counter : Type := Z.

Definition Incr (c : Counter) : Z * Counter :=
  let v := Go.int32 (c + 1) in (v, v).

(** Header maps, [map[string][]string] in Go. *)
Definition Header : Type := list (string * list string).

(** The messages the parser returns, over the type [B] of body readers. *)
Module Req.
Record Request {B : Type} : Type := {
  Method : string;
  Host : string;
  RequestURI : string;
  Proto : string;
  Header : Header;
  ContentLength : Z;     (* int64; -1 when unknown *)
  Body : B
}.
Arguments Request : clear implicits.
End Req.

Module Rsp.
Record Response {B : Type} : Type := {
  StatusLine : string;
  RawHeaders : list string;
  Header : Header;
  StatusCode : Z;
  ContentLength : Z;     (* int64; -1 when unknown *)
  Body : B
}.
Arguments Response : clear implicits.
End Rsp.

Inductive Direction : Type := DirRequest | DirResponse.

(** The readers [discardAll] is applied to. *)
Inductive Reader {B : Type} : Type :=
| ReaderBody (b : B)     (* r.Body *)
| ReaderBufio            (* rr, the bufio.Reader over the stream *)
| ReaderStream.          (* the stream itself *)
Arguments Reader : clear implicits.

(** What a handler holds besides its buffer and the sender. *)
Record HandlerBase : Type := {
  key : ConnectionKey;
  option_ : Option      (* the field [option] *)
}.

(** What lies outside the sources at hand and is used by the handler: the
    reassembled stream of one direction together with the fields the
    assembler writes while the consumer is blocked on it, the HTTP parser,
    and the helpers of [HandlerBase] that render headers and bodies.  Each
    operation that reads from the stream is a state transformer on it. *)
Class Env : Type := {
  B : Type;
  Stream : Type;
  (** [c.lastReqTimestamp] or [c.lastRspTimestamp], as the stream's
      direction has it *)
  lastTimestamp : Stream -> Time;
  (** [c.requestStream.LastUUID] or [c.responseStream.LastUUID] *)
  LastUUID : Stream -> string;
  ReadRequest : Stream -> (Req.Request B + Go.error) * Stream;
  ReadResponse : Stream -> (Rsp.Response B + Go.error) * Stream;
  (** [discardAll(r)]: the number of bytes read and thrown away *)
  discardAll : Reader B -> Stream -> Z * Stream;
  (** [Close] of the stream *)
  Close : Stream -> Stream;
  (** the text [h.printHeader] appends to the buffer; a method of the
      handler, whose key and options it can see *)
  printHeader : HandlerBase -> Header -> string;
  (** the text [h.printBody] appends to the buffer, reading the body; a
      method of the handler as well *)
  printBody : HandlerBase -> Header -> B -> Stream -> string * Stream;
  (** [t.Format(time.RFC3339Nano)] *)
  formatRFC3339Nano : Time -> string
}.

(** The trace of one connection: what its two consumers do to the outside.
    [EvSend] is [h.sender.Send(h.buffer.String())]; besides the text it
    records, as ghost data, the consumer that sent it and the sequence
    number and timestamp that were passed to the printer. *)
Inductive Event {B : Type} : Type :=
| EvSend (d : Direction) (seq : Z) (stamp : Time) (text : string)
| EvStderr (text : string)
| EvDiscardAll (d : Direction) (r : Reader B)
| EvPrintBody (d : Direction) (b : B)
| EvClose (d : Direction)
| EvWgDone (d : Direction).
Arguments Event : clear implicits.

Section Handler.
Context {env : Env}.

(** The state a printer works on: [h.buffer], the stream its bodies are
    read from, and the reads it has made. *)
Record PState : Type := {
  buffer : string;
  strm : Stream;
  reads : list (Event B)
}.

(** Modelled from the spec: [HandlerBase.writeLine] (declared outside the
    sources at hand): by the record framing of the design, one line holding
    the operands separated by spaces, appended to the buffer. *)
Definition writeLine (a : list string) (p : PState) : PState :=
  {| buffer := buffer p +:+ Go.Sprintln a; strm := strm p; reads := reads p |}.

Definition discardAllP (d : Direction) (r : Reader B) (p : PState)
    : Z * PState :=
  let '(n, s) := discardAll r (strm p) in
  (n, {| buffer := buffer p; strm := s;
         reads := reads p ++ [EvDiscardAll d r] |}).

Definition printHeaderP (h : HandlerBase) (hd : Header) (p : PState)
    : PState :=
  {| buffer := buffer p +:+ printHeader h hd; strm := strm p;
     reads := reads p |}.

Definition printBodyP (h : HandlerBase) (d : Direction) (hd : Header)
    (b : B) (p : PState) : PState :=
  let '(text, s) := printBody h hd b (strm p) in
  {| buffer := buffer p +:+ text; strm := s;
     reads := reads p ++ [EvPrintBody d b] |}.

Definition requestHasBody (r : Req.Request B) : bool :=
  if (Req.ContentLength r =? 0) || String.eqb (Req.Method r) "GET" ||
     String.eqb (Req.Method r) "HEAD" || String.eqb (Req.Method r) "TRACE" ||
     String.eqb (Req.Method r) "OPTIONS"
  then false else true.

Definition responseHasBody (r : Rsp.Response B) : bool :=
  if (Rsp.ContentLength r =? 0) || (Rsp.StatusCode r =? 304) ||
     (Rsp.StatusCode r =? 204)
  then false else true.

(** [fmt.Sprintf("\n### REQUEST #%d %s %s->%s %s", ...)] *)
Definition requestBanner (h : HandlerBase) (startTime : Time) (uuid : string)
    (seq : Z) : string :=
  Go.newline +:+ "### REQUEST #" +:+ Go.itoa seq +:+ " " +:+ uuid +:+ " " +:+
  Endpoint_String (src (key h)) +:+ "->" +:+ Endpoint_String (dst (key h)) +:+
  " " +:+ formatRFC3339Nano startTime.

(** [fmt.Sprintf("\n### RESPONSE #%d %s %s<-%s %s", ...)] *)
Definition responseBanner (h : HandlerBase) (endTime : Time) (uuid : string)
    (seq : Z) : string :=
  Go.newline +:+ "### RESPONSE #" +:+ Go.itoa seq +:+ " " +:+ uuid +:+ " " +:+
  Endpoint_String (src (key h)) +:+ "<-" +:+ Endpoint_String (dst (key h)) +:+
  " " +:+ formatRFC3339Nano endTime.

Definition bodySizeNote (n : Z) : list string :=
  [Go.newline +:+ "// body size:"; Go.itoa n;
   ", set [level = all] to display http body"].

Definition printRequest (h : HandlerBase) (r : Req.Request B)
    (startTime : Time) (uuid : string) (seq : Z) (p : PState) : PState :=
  if String.eqb (Level (option_ h)) "url" then
    writeLine [Req.Method r; Req.Host r +:+ Req.RequestURI r] p
  else
    let p := writeLine [requestBanner h startTime uuid seq] p in
    let p := writeLine [Req.Method r; Req.RequestURI r; Req.Proto r] p in
    let p := printHeaderP h (Req.Header r) p in
    let hasBody := requestHasBody r in
    if String.eqb (Level (option_ h)) "header" then
      if hasBody then
        let '(n, p) := discardAllP DirRequest (ReaderBody (Req.Body r)) p in
        writeLine (bodySizeNote n) p
      else p
    else if hasBody then
      printBodyP h DirRequest (Req.Header r) (Req.Body r) (writeLine [] p)
    else p.

(** The body of [printResponse], before its deferred call. *)
Definition printResponseBody (h : HandlerBase) (r : Rsp.Response B)
    (endTime : Time) (uuid : string) (seq : Z) (p : PState) : PState :=
  if negb (Resp (option_ h)) || String.eqb (Level (option_ h)) "url" then p
  else
    let p := writeLine [responseBanner h endTime uuid seq] p in
    let p := writeLine [Rsp.StatusLine r] p in
    let p := fold_left (fun p header => writeLine [header] p)
               (Rsp.RawHeaders r) p in
    let hasBody := responseHasBody r in
    if String.eqb (Level (option_ h)) "header" then
      if hasBody then
        let '(n, p) := discardAllP DirResponse (ReaderBody (Rsp.Body r)) p in
        writeLine (bodySizeNote n) p
      else p
    else if hasBody then
      printBodyP h DirResponse (Rsp.Header r) (Rsp.Body r) (writeLine [] p)
    else p.

(** [printResponse]: the body, then [defer discardAll(r.Body)]. *)
Definition printResponse (h : HandlerBase) (r : Rsp.Response B)
    (endTime : Time) (uuid : string) (seq : Z) (p : PState) : PState :=
  snd (discardAllP DirResponse (ReaderBody (Rsp.Body r))
         (printResponseBody h r endTime uuid seq p)).

(** The state of one connection and of the two process-wide counters. *)
Record World : Type := {
  requestStream : Stream;
  responseStream : Stream;
  clientID : string;
  reqCounter : Counter;
  rspCounter : Counter;
  trace : list (Event B)
}.

Definition isEOF (err : Go.error) : bool :=
  match err with
  | Go.EOF | Go.ErrUnexpectedEOF => true
  | Go.ErrOther _ => false
  end.

(** The request filter of [handleRequest]. *)
Definition requestFiltered (o : Option) (r : Req.Request B) : bool :=
  negb (String.eqb (Host o) "") && negb (wildcardMatch (Req.Host r) (Host o)) ||
  negb (String.eqb (Uri o) "") &&
    negb (wildcardMatch (Req.RequestURI r) (Uri o)) ||
  negb (String.eqb (Method o) "") &&
    negb (Go.Contains (Method o) (Req.Method r)).

Definition requestParseError (err : Go.error) : string :=
  Go.Sprintln ["Error parsing HTTP requests:"; Go.Error err].

Definition responseParseError (err : Go.error) (client : string) : string :=
  Go.Sprintln ["Error parsing HTTP response:"; Go.Error err; client].

Definition setRequest (w : World) (s : Stream) (c : Counter)
    (evs : list (Event B)) : World :=
  {| requestStream := s; responseStream := responseStream w;
     clientID := clientID w; reqCounter := c; rspCounter := rspCounter w;
     trace := trace w ++ evs |}.

Definition setResponse (w : World) (s : Stream) (c : Counter)
    (evs : list (Event B)) : World :=
  {| requestStream := requestStream w; responseStream := s;
     clientID := clientID w; reqCounter := reqCounter w; rspCounter := c;
     trace := trace w ++ evs |}.

(** The [for] loop of [handleRequest]. *)
Fixpoint requestLoop (fuel : nat) (h : HandlerBase) (w : World)
    : option World :=
  match fuel with
  | O => None
  | S fuel' =>
      let '(res, s1) := ReadRequest (requestStream w) in
      let startTime := lastTimestamp s1 in
      match res with
      | inr err =>
          Some (setRequest w s1 (reqCounter w)
                  (if isEOF err then []
                   else [EvStderr (requestParseError err)]))
      | inl r =>
          if requestFiltered (option_ h) r then
            let '(_, s2) := discardAll (ReaderBody (Req.Body r)) s1 in
            requestLoop fuel' h
              (setRequest w s2 (reqCounter w)
                 [EvDiscardAll DirRequest (ReaderBody (Req.Body r))])
          else
            let '(seq, c) := Incr (reqCounter w) in
            let p := printRequest h r startTime (LastUUID s1) seq
                       {| buffer := ""; strm := s1; reads := [] |} in
            requestLoop fuel' h
              (setRequest w (strm p) c
                 (reads p ++ [EvSend DirRequest seq startTime (buffer p)]))
      end
  end.

(** [handleRequest]: the loop, then the deferred calls, last one first. *)
Definition handleRequest (fuel : nat) (h : HandlerBase) (w : World)
    : option World :=
  w1 ← requestLoop fuel h w;
  let '(_, s) := discardAll ReaderBufio (requestStream w1) in
  Some (setRequest w1 (Close s) (reqCounter w1)
          [EvDiscardAll DirRequest ReaderBufio; EvClose DirRequest;
           EvWgDone DirRequest]).

(** The [for] loop of [handleResponse]. *)
Fixpoint responseLoop (fuel : nat) (h : HandlerBase) (w : World)
    : option World :=
  match fuel with
  | O => None
  | S fuel' =>
      let '(res, s1) := ReadResponse (responseStream w) in
      let endTime := lastTimestamp s1 in
      match res with
      | inr err =>
          Some (setResponse w s1 (rspCounter w)
                  (if isEOF err then []
                   else [EvStderr (responseParseError err (clientID w))]))
      | inl r =>
          if negb (IntSet_Contains (Status (option_ h)) (Rsp.StatusCode r)) then
            let '(_, s2) := discardAll (ReaderBody (Rsp.Body r)) s1 in
            responseLoop fuel' h
              (setResponse w s2 (rspCounter w)
                 [EvDiscardAll DirResponse (ReaderBody (Rsp.Body r))])
          else
            let '(seq, c) := Incr (rspCounter w) in
            let p := printResponse h r endTime (LastUUID s1) seq
                       {| buffer := ""; strm := s1; reads := [] |} in
            responseLoop fuel' h
              (setResponse w (strm p) c
                 (reads p ++ [EvSend DirResponse seq endTime (buffer p)]))
      end
  end.

Definition handleResponse (fuel : nat) (h : HandlerBase) (w : World)
    : option World :=
  if negb (Resp (option_ h)) then
    let '(_, s) := discardAll ReaderStream (responseStream w) in
    Some (setResponse w (Close s) (rspCounter w)
            [EvDiscardAll DirResponse ReaderStream; EvClose DirResponse;
             EvWgDone DirResponse])
  else
    w1 ← responseLoop fuel h w;
    let '(_, s) := discardAll ReaderBufio (responseStream w1) in
    Some (setResponse w1 (Close s) (rspCounter w1)
            [EvDiscardAll DirResponse ReaderBufio; EvClose DirResponse;
             EvWgDone DirResponse]).

(** [q] holds the buffer of [p] and something after it. *)
Definition extends (p q : PState) : Prop :=
  exists text, buffer q = buffer p +:+ text.

(** What the response consumer works on, and what the request consumer
    works on. *)
Definition sameResponseSide (w w' : World) : Prop :=
  responseStream w = responseStream w' /\ rspCounter w = rspCounter w' /\
  clientID w = clientID w'.

Definition sameRequestSide (w w' : World) : Prop :=
  requestStream w = requestStream w' /\ reqCounter w = reqCounter w'.

(** Two runs of a loop, from [w1] and from [w2], come out alike: both run
    out of fuel, or both return, having added the same events to the trace
    and agreeing on the side of the connection in question. *)
Definition sameOutcome (sameSide : World -> World -> Prop) (w1 w2 : World)
    (a b : option World) : Prop :=
  match a, b with
  | Some a', Some b' =>
      sameSide a' b' /\
      exists evs, trace a' = trace w1 ++ evs /\ trace b' = trace w2 ++ evs
  | None, None => True
  | _, _ => False
  end.

End Handler.

(** ** The documented method filter

    The flag reads "Filter by request method, multiple by comma": the
    option is a list of methods separated by commas, and a request passes
    when its method is one of them. *)
Module Documented.

Fixpoint splitComma (s : string) (current : string) : list string :=
  match s with
  | EmptyString => [current]
  | String c s' =>
      if Ascii.eqb c "," then current :: splitComma s' ""
      else splitComma s' (current +:+ String c EmptyString)
  end.

Definition methodListed (methods method : string) : bool :=
  existsb (String.eqb method) (splitComma methods "").

End Documented.


Fixpoint countNewlines (s : string) : nat :=
  match s with
  | EmptyString => O
  | String c s' =>
      (if Ascii.eqb c (ascii_of_nat 10) then 1 else 0)%nat + countNewlines s'
  end.

(** Projections of a trace. *)
Definition isStderr {B : Type} (e : Event B) : bool :=
  match e with EvStderr _ => true | _ => false end.

Definition isSend {B : Type} (e : Event B) : bool :=
  match e with EvSend _ _ _ _ => true | _ => false end.

Definition isBodyRead {B : Type} (e : Event B) : bool :=
  match e with EvDiscardAll _ _ | EvPrintBody _ _ => true | _ => false end.

(** The sequence numbers of the records handed to the sender, in order. *)
Fixpoint sentSeqs {B : Type} (evs : list (Event B)) : list Z :=
  match evs with
  | [] => []
  | EvSend _ seq _ _ :: rest => seq :: sentSeqs rest
  | _ :: rest => sentSeqs rest
  end.


(** ** A scripted environment

    An instance of [Env] on which the handler can be run: the stream of a
    direction is the list of what the successive calls of the parser will
    return, each with the values the connection's timestamp and the
    stream's UUID have when that call returns.  Bodies are their bytes. *)
Module Script.

Record Delivery : Type := {
  outcome : (Req.Request string + Go.error) + (Rsp.Response string + Go.error);
  arrival : Time;
  uuid : string
}.

Record Stream : Type := {
  pending : list Delivery;
  stamp : Time;
  lastUUID : string;
  closed : bool
}.

Definition deliver (d : Delivery) (rest : list Delivery) (s : Stream)
    : Stream :=
  {| pending := rest; stamp := arrival d; lastUUID := uuid d;
     closed := closed s |}.

Definition ReadRequest (s : Stream)
    : (Req.Request string + Go.error) * Stream :=
  match pending s with
  | [] => (inr Go.EOF, s)
  | d :: rest =>
      (match outcome d with
       | inl res => res
       | inr _ => inr (Go.ErrOther "malformed HTTP request")
       end, deliver d rest s)
  end.

Definition ReadResponse (s : Stream)
    : (Rsp.Response string + Go.error) * Stream :=
  match pending s with
  | [] => (inr Go.EOF, s)
  | d :: rest =>
      (match outcome d with
       | inr res => res
       | inl _ => inr (Go.ErrOther "malformed HTTP response")
       end, deliver d rest s)
  end.

Definition discardAll (r : Reader string) (s : Stream) : Z * Stream :=
  match r with
  | ReaderBody b => (Z.of_nat (String.length b), s)
  | ReaderBufio | ReaderStream =>
      (0, {| pending := []; stamp := stamp s; lastUUID := lastUUID s;
             closed := closed s |})
  end.

Definition Close (s : Stream) : Stream :=
  {| pending := pending s; stamp := stamp s; lastUUID := lastUUID s;
     closed := true |}.

Definition printHeader (h : HandlerBase) (hd : Header) : string :=
  String.concat ""
    (map (fun kv => Go.Sprintln [fst kv +:+ ":"; String.concat "," (snd kv)])
       hd).

Definition printBody (h : HandlerBase) (hd : Header) (b : string)
    (s : Stream) : string * Stream :=
  (Go.Sprintln [b], s).

(** Instants are rendered by their number of nanoseconds: any rendering
    that tells two instants apart serves here. *)
Definition env : Env :=
  Build_Env string Stream stamp lastUUID ReadRequest ReadResponse discardAll
    Close printHeader printBody Go.itoa.

End Script.

(** ** Sample inputs *)
Module Sample.

(** The defaults of the flags: level [header], input [any], buffers of
    10240 and 40960, idle time of four minutes. *)
Definition defaults : Option :=
  {| Level := "header"; Input := "any"; Ip := ""; Port := 0; Chan := 10240;
     OutChan := 40960; Host := ""; Uri := ""; Method := ""; Resp := false;
     Status := []; Force := false; Curl := false; Human := false;
     DumpBody := false; Fast := false; Output := "";
     Idle := 240000000000 |}.

Definition withPort (o : Option) (p : Z) : Option :=
  {| Level := Level o; Input := Input o; Ip := Ip o; Port := p;
     Chan := Chan o; OutChan := OutChan o; Host := Host o; Uri := Uri o;
     Method := Method o; Resp := Resp o; Status := Status o;
     Force := Force o; Curl := Curl o; Human := Human o;
     DumpBody := DumpBody o; Fast := Fast o; Output := Output o;
     Idle := Idle o |}.

Definition withMethod (o : Option) (m : string) : Option :=
  {| Level := Level o; Input := Input o; Ip := Ip o; Port := Port o;
     Chan := Chan o; OutChan := OutChan o; Host := Host o; Uri := Uri o;
     Method := m; Resp := Resp o; Status := Status o;
     Force := Force o; Curl := Curl o; Human := Human o;
     DumpBody := DumpBody o; Fast := Fast o; Output := Output o;
     Idle := Idle o |}.

(** [-fast -resp -status 100-599 -level l] *)
Definition fastResp (l : string) : Option :=
  {| Level := l; Input := "any"; Ip := ""; Port := 0; Chan := 10240;
     OutChan := 40960; Host := ""; Uri := ""; Method := ""; Resp := true;
     Status := [(100, 599)]; Force := false; Curl := false; Human := false;
     DumpBody := false; Fast := true; Output := "";
     Idle := 240000000000 |}.

Definition key0 : ConnectionKey :=
  {| src := {| ip := "10.0.0.1"; port := 40000 |};
     dst := {| ip := "10.0.0.2"; port := 80 |} |}.

Definition handler (o : Option) : HandlerBase :=
  {| key := key0; option_ := o |}.

Definition getX : Req.Request string :=
  {| Req.Method := "GET"; Req.Host := "a"; Req.RequestURI := "/x";
     Req.Proto := "HTTP/1.1"; Req.Header := [("Host", ["a"])];
     Req.ContentLength := 0; Req.Body := "" |}.

Definition postForm : Req.Request string :=
  {| Req.Method := "POST"; Req.Host := "a"; Req.RequestURI := "/form";
     Req.Proto := "HTTP/1.1";
     Req.Header := [("Host", ["a"]); ("Content-Length", ["3"])];
     Req.ContentLength := 3; Req.Body := "k=v" |}.

(** A WebDAV request: [LOCK /doc HTTP/1.1]. *)
Definition lockDoc : Req.Request string :=
  {| Req.Method := "LOCK"; Req.Host := "dav"; Req.RequestURI := "/doc";
     Req.Proto := "HTTP/1.1"; Req.Header := [("Host", ["dav"])];
     Req.ContentLength := 0; Req.Body := "" |}.

Definition ok200 : Rsp.Response string :=
  {| Rsp.StatusLine := "HTTP/1.1 200 OK";
     Rsp.RawHeaders := ["Content-Length: 3"];
     Rsp.Header := [("Content-Length", ["3"])];
     Rsp.StatusCode := 200; Rsp.ContentLength := 3; Rsp.Body := "abc" |}.

Definition noContent204 : Rsp.Response string :=
  {| Rsp.StatusLine := "HTTP/1.1 204 No Content";
     Rsp.RawHeaders := [];
     Rsp.Header := [];
     Rsp.StatusCode := 204; Rsp.ContentLength := -1; Rsp.Body := "" |}.

Definition request (r : Req.Request string) (t : Time) (u : string)
    : Script.Delivery :=
  {| Script.outcome := inl (inl r); Script.arrival := t; Script.uuid := u |}.

Definition response (r : Rsp.Response string) (t : Time) (u : string)
    : Script.Delivery :=
  {| Script.outcome := inr (inl r); Script.arrival := t; Script.uuid := u |}.

Definition failure (e : Go.error) (t : Time) (u : string)
    : Script.Delivery :=
  {| Script.outcome := inl (inr e); Script.arrival := t; Script.uuid := u |}.

Definition responseFailure (e : Go.error) (t : Time) (u : string)
    : Script.Delivery :=
  {| Script.outcome := inr (inr e); Script.arrival := t; Script.uuid := u |}.

Definition stream (ds : list Script.Delivery) (t : Time) : Script.Stream :=
  {| Script.pending := ds; Script.stamp := t; Script.lastUUID := "";
     Script.closed := false |}.

Definition streamAt (ds : list Script.Delivery) (t : Time) (u : string)
    : Script.Stream :=
  {| Script.pending := ds; Script.stamp := t; Script.lastUUID := u;
     Script.closed := false |}.

(** A fresh connection at instant [t0]. *)
Definition world (reqs rsps : list Script.Delivery) (t0 : Time)
    : World (env := Script.env) :=
  @Build_World Script.env (stream reqs t0) (stream rsps t0) "10.0.0.1:40000"
    0 0 [].

Definition flow0 : Flow := {| flowSrc := "10.0.0.1"; flowDst := "10.0.0.2" |}.

Definition segment0 : TCP :=
  {| SrcPort := 40000; DstPort := 80; Seq := 1; SYN := false; FIN := false;
     RST := false; Payload := "GET /x HTTP/1.1" |}.

Definition tcpPacket (ts : Time) : Packet :=
  {| pNetworkLayer := Some {| NetworkFlow := flow0 |};
     pTransportLayer := Some (TransportTCP segment0);
     pTimestamp := ts |}.

Definition udpPacket (ts : Time) : Packet :=
  {| pNetworkLayer := Some {| NetworkFlow := flow0 |};
     pTransportLayer := Some TransportUDP;
     pTimestamp := ts |}.

(** An ARP frame: no network layer in gopacket's sense, no transport. *)
Definition arpPacket (ts : Time) : Packet :=
  {| pNetworkLayer := None; pTransportLayer := None; pTimestamp := ts |}.

End Sample.

(** ** Several connections: numbering and sending, interleaved

    [FastConnectionHandler.handle] starts one request consumer and one
    response consumer per connection, each in a goroutine of its own.  The
    consumers of one direction share that direction's counter and the
    sender.  For a record that passes the filter a consumer first takes its
    number ([seq := reqCounter.Incr()]), then prints into its own buffer,
    then sends; nothing makes the two steps one, so the steps of different
    consumers interleave.  A schedule lists the steps in the order in which
    they take place. *)
Module Numbering.

Inductive Pc : Type :=
| Parsing                (* before [Incr] *)
| Numbered (seq : Z).    (* after [Incr], before [Send] *)

Record Sys : Type := {
  counter : Counter;
  consumers : list Pc;            (* one per connection *)
  sent : list (nat * Z)           (* the sender's input: consumer, number *)
}.

Inductive Action : Type :=
| DoIncr (i : nat)
| DoSend (i : nat).

Definition step (a : Action) (s : Sys) : option Sys :=
  match a with
  | DoIncr i =>
      match consumers s !! i with
      | Some Parsing =>
          let '(seq, c) := Incr (counter s) in
          Some {| counter := c;
                  consumers := <[i := Numbered seq]> (consumers s);
                  sent := sent s |}
      | _ => None
      end
  | DoSend i =>
      match consumers s !! i with
      | Some (Numbered seq) =>
          Some {| counter := counter s;
                  consumers := <[i := Parsing]> (consumers s);
                  sent := sent s ++ [(i, seq)] |}
      | _ => None
      end
  end.

Fixpoint exec (schedule : list Action) (s : Sys) : option Sys :=
  match schedule with
  | [] => Some s
  | a :: rest => s' ← step a s; exec rest s'
  end.

(** The start of a run with [n] connections. *)
Definition init (n : nat) : Sys :=
  {| counter := 0; consumers := replicate n Parsing; sent := [] |}.

(** The numbers of the records of consumer [i], in the order sent. *)
Definition seqsOf (i : nat) (l : list (nat * Z)) : list Z :=
  (filter (fun x => x.1 = i) l).*2.

(** One connection alone: [k] records numbered and sent in turn. *)
Fixpoint rounds (k : nat) : list Action :=
  match k with
  | O => []
  | S k' => DoIncr 0 :: DoSend 0 :: rounds k'
  end.

(** The number of records numbered by a schedule. *)
Fixpoint numbered (schedule : list Action) : Z :=
  match schedule with
  | [] => 0
  | DoIncr _ :: rest => 1 + numbered rest
  | DoSend _ :: rest => numbered rest
  end.

(** What holds of every state of a run in which at most [k] records have
    been numbered, short of the wrap-around of the counter. *)
Definition inv (k : Z) (s : Sys) : Prop :=
  0 <= counter s <= k /\
  (forall j q, (j, q) ∈ sent s -> 1 <= q <= counter s) /\
  (forall i q,
     consumers s !! i = Some (Numbered q) ->
     1 <= q <= counter s /\
     forall j q', (j, q') ∈ sent s -> q' <> q /\ (j = i -> q' < q)) /\
  (forall i j q,
     consumers s !! i = Some (Numbered q) ->
     consumers s !! j = Some (Numbered q) -> i = j) /\
  NoDup (sent s).*2 /\
  forall i, StronglySorted Z.lt (seqsOf i (sent s)).

End Numbering.

(** ** More of main.go: [main], and a run of [loop] as a whole *)

(** How the process ends: [main] panics on the error [run] returns. *)
Inductive Exit : Type :=
| ExitNormally
| ExitPanic (err : Go.error)
| StillRunning.         (* [run] has not returned *)

Definition main (env : RunEnv) (o : Option) : Exit :=
  match returned (run env o) with
  | Some (Some err) => ExitPanic err
  | Some None => ExitNormally
  | None => StillRunning
  end.

(** The events on which [loop] returns. *)
Definition isStop (e : SelectEvent) : bool :=
  match e with
  | RecvPacket None | CtxDone => true
  | _ => false
  end.

(** The events received before the first one on which [loop] returns. *)
Fixpoint beforeStop (events : list SelectEvent) : list SelectEvent :=
  match events with
  | [] => []
  | e :: rest => if isStop e then [] else e :: beforeStop rest
  end.

(** The call a TCP/IP packet gives rise to. *)
Definition assembleOf (p : Packet) : option AssemblerCall :=
  match pNetworkLayer p, pTransportLayer p with
  | Some n, Some (TransportTCP tcp) =>
      Some (assemble (NetworkFlow n) tcp (pTimestamp p))
  | _, _ => None
  end.

Definition callOf (idle : Z) (e : SelectEvent) : option AssemblerCall :=
  match e with
  | RecvPacket (Some p) => assembleOf p
  | Tick now => Some (flushOlderThan (now - idle))
  | _ => None
  end.

(** ** More of the fast handler: [FastConnectionHandler.handle] *)

Definition isFinal {B : Type} (e : Event B) : bool :=
  match e with EvClose _ | EvWgDone _ => true | _ => false end.

Definition isWgDone {B : Type} (e : Event B) : bool :=
  match e with EvWgDone _ => true | _ => false end.

Definition isPrintBody {B : Type} (e : Event B) : bool :=
  match e with EvPrintBody _ _ => true | _ => false end.

Section Handle.
Context {env : Env}.

(** [handle] makes two handlers on the same key and options, adds two to
    the wait group and starts the two consumers, each in a goroutine.  The
    consumers are run here one after the other, the request consumer first;
    that the order is immaterial is a property proved of them.  The result
    carries the number added to the wait group. *)
Definition handle (fuelReq fuelRsp : nat) (o : Option) (src dst : Endpoint)
    (w : World) : option (Z * World) :=
  let key := {| src := src; dst := dst |} in
  let reqHandler := {| key := key; option_ := o |} in
  let rspHandler := {| key := key; option_ := o |} in
  let added := 2 in
  w1 ← handleRequest fuelReq reqHandler w;
  w2 ← handleResponse fuelRsp rspHandler w1;
  Some (added, w2).

End Handle.

(** ** The replay client (package [replay])

    [HTTPClient] sends a captured request again, to a base URL. *)
Module Replay.

Module url.
Record URL : Type := {
  Scheme : string;
  Host : string;
  Path : string          (* what follows the host *)
}.
End url.

(** [http.Header]; the keys are in canonical form, as the parser leaves
    them and as [Get] and [Set] look them up. *)
Definition HeaderMap : Type := gmap string (list string).

Definition Header_Get (h : HeaderMap) (key : string) : string :=
  match h !! key with
  | Some (v :: _) => v
  | _ => ""
  end.

Definition Header_Set (h : HeaderMap) (key value : string) : HeaderMap :=
  <[key := [value]]> h.

Module http.
Record Request : Type := {
  Method : string;
  URL : url.URL;
  Header : HeaderMap;
  Host : string;
  Close : bool;
  RequestURI : string;
  Body : string
}.

Record Response : Type := {
  StatusCode : Z;
  Content : string
}.

Definition MethodConnect : string := "CONNECT".

(** The transport of a client: the default one (the field is nil), or a
    clone of the default one whose TLS configuration has
    [InsecureSkipVerify] set. *)
Inductive Transport : Type :=
| DefaultTransport
| CloneInsecureSkipVerify.

Record Client : Type := {
  Transport_ : Transport;
  Timeout : Z
}.
End http.

Record HTTPClientConfig : Type := {
  Verbose : string;
  Timeout : Z;             (* time.Duration *)
  InsecureVerify : bool;
  BaseURL : url.URL;
  Methods : string
}.

Record HTTPClient : Type := {
  Client : http.Client;
  Config : HTTPClientConfig    (* the embedded *HTTPClientConfig *)
}.

Definition second : Z := 1000000000.

Definition withTimeout (c : HTTPClientConfig) (t : Z) : HTTPClientConfig :=
  {| Verbose := Verbose c; Timeout := t; InsecureVerify := InsecureVerify c;
     BaseURL := BaseURL c; Methods := Methods c |}.

(** [NewHTTPClient]: the configuration is updated in place and the client
    keeps the pointer to it. *)
Definition NewHTTPClient (c : HTTPClientConfig) : HTTPClient :=
  let c := if Timeout c =? 0 then withTimeout c (15 * second) else c in
  {| Client :=
       {| http.Transport_ :=
            if negb (InsecureVerify c) then http.CloneInsecureSkipVerify
            else http.DefaultTransport;
          http.Timeout := Timeout c |};
     Config := c |}.

Record SendResponse : Type := {
  Method : string;
  URL : string;
  ResponseBody : string;
  StatusCode : Z;
  Cost : Z
}.

(** What lies outside the sources at hand: the parser of the standard
    library, the round trip of the client, the reading of a response body,
    the rendering of a URL and the clock. *)
Class Net : Type := {
  (** [http.ReadRequest(bufio.NewReader(bytes.NewReader(data)))] *)
  ReadRequest : string -> http.Request + Go.error;
  (** [c.Client.Do(req)]: the response, or nil, and the error, or nil *)
  Do : http.Client -> http.Request ->
       option http.Response * option Go.error;
  (** [util.ReadCloseBody(rsp)], its error dropped *)
  ReadCloseBody : http.Response -> string;
  (** [req.URL.String()] *)
  URL_String : url.URL -> string;
  (** [time.Since(start)] once [Do] has returned *)
  elapsed : http.Request -> Z
}.

Inductive Effect : Type :=
| LogRequest (req : http.Request) (verbose : string)
| ClientDo (req : http.Request)
| LogResponse (rsp : option http.Response) (verbose : string).

Definition marker : string := "X-Goreplay-Output".

(** The request as [Send] rewrites it before sending. *)
Definition outgoing (c : HTTPClient) (req : http.Request) : http.Request :=
  {| http.Method := http.Method req;
     http.URL := {| url.Scheme := url.Scheme (BaseURL (Config c));
                    url.Host := url.Host (BaseURL (Config c));
                    url.Path := url.Path (http.URL req) |};
     http.Header := Header_Set (http.Header req) marker "1";
     http.Host := url.Host (BaseURL (Config c));
     http.Close := false;
     http.RequestURI := "";
     http.Body := http.Body req |}.

Definition Send {net : Net} (c : HTTPClient) (data : string)
    : (option SendResponse * option Go.error) * list Effect :=
  match ReadRequest data with
  | inr err => ((None, Some err), [])
  | inl req =>
      if String.eqb (http.Method req) http.MethodConnect then
        ((None, None), [])
      else if negb (String.eqb (Methods (Config c)) "") &&
              negb (Go.Contains (Methods (Config c)) (http.Method req)) then
        ((None, None), [])
      else if String.eqb (Header_Get (http.Header req) marker) "1" then
        ((None, None), [])
      else
        let req := outgoing c req in
        let '(rsp, err) := Do (Client c) req in
        let sendRsp :=
          {| Method := http.Method req;
             URL := URL_String (http.URL req);
             ResponseBody :=
               match rsp with Some r => ReadCloseBody r | None => "" end;
             StatusCode :=
               match rsp with Some r => http.StatusCode r | None => 0 end;
             Cost := elapsed req |} in
        ((Some sendRsp, err),
         [LogRequest req (Verbose (Config c)); ClientDo req;
          LogResponse rsp (Verbose (Config c))])
  end.

(** A scripted network: the parser goes by the first word of the data
    ([MARKED] stands for a request that carries the marker header, as one
    the client has sent does when it is captured again: parsed from the
    wire it has its request URI and [Close] like any other), and the
    server answers 200 to everything but [/down]. *)
Definition sampleRequest (method path : string) (marked : bool)
    : http.Request :=
  {| http.Method := method;
     http.URL := {| url.Scheme := ""; url.Host := ""; url.Path := path |};
     http.Header := if marked then {[ marker := ["1"] ]}
                    else {[ "Accept" := ["*/*"] ]};
     http.Host := "a";
     http.Close := true;
     http.RequestURI := path;
     http.Body := "" |}.

Definition sampleConfig (methods : string) : HTTPClientConfig :=
  {| Verbose := ""; Timeout := 0; InsecureVerify := false;
     BaseURL := {| url.Scheme := "http"; url.Host := "b:8080";
                   url.Path := "" |};
     Methods := methods |}.

Definition sampleNet : Net :=
  {| ReadRequest data :=
       if String.eqb data "" then inr Go.EOF
       else if String.prefix "MARKED " data then
         inl (sampleRequest "GET" "/x" true)
       else if String.prefix "CONNECT " data then
         inl (sampleRequest "CONNECT" "/" false)
       else if String.prefix "OPTIONS " data then
         inl (sampleRequest "OPTIONS" "/x" false)
       else if String.prefix "GET /down" data then
         inl (sampleRequest "GET" "/down" false)
       else inl (sampleRequest "GET" "/x" false);
     Do cl req :=
       if String.eqb (url.Path (http.URL req)) "/down"
       then (None, Some (Go.ErrOther "connection refused"))
       else (Some {| http.StatusCode := 200; http.Content := "ok" |}, None);
     ReadCloseBody := http.Content;
     URL_String u := url.Scheme u +:+ "://" +:+ url.Host u +:+ url.Path u;
     elapsed _ := 1000 |}.

End Replay.

(** * Properties *)

(** Where a statement names no environment, it is about the scripted one. *)
#[local] Existing Instance Script.env.

(** ** The orchestration loop *)

Lemma loop_unfold_run (events : list SelectEvent) (idle : Z)
    (calls : list AssemblerCall) :
  loop events idle calls =
  (calls ++ omap (callOf idle) (beforeStop events),
   if existsb isStop events then Returned else Waiting).
Proof.
  revert calls. induction events as [|e events IH]; intros calls.
  - simpl. rewrite app_nil_r. reflexivity.
  - destruct e as [[p|]|now|].
    + cbn [loop]. unfold beforeStop; fold beforeStop. cbn [isStop existsb orb].
      cbn [omap list_omap callOf]. unfold assembleOf.
      destruct (pNetworkLayer p) as [n|], (pTransportLayer p) as [[tcp| | |k]|];
        cbn; rewrite IH; try reflexivity.
      rewrite <- app_assoc. reflexivity.
    + cbn. rewrite app_nil_r. reflexivity.
    + cbn [loop]. rewrite IH. cbn. rewrite <- app_assoc. reflexivity.
    + cbn. rewrite app_nil_r. reflexivity.
Qed.

(** C9: a packet without a network layer, without a transport layer, or
    whose transport layer is not TCP makes no call and does not end the
    loop: what the loop returns is what it returns on the events that
    follow, namely the calls made so far, then one call for each TCP/IP
    packet and each tick received before the nil packet or the
    cancellation, and the status these events give.  A packet with a
    network layer and a TCP layer adds to this, in its place, the call of
    [assembler.assemble] with its flow, its TCP layer and its capture
    timestamp, and the loop goes on likewise. *)
Theorem loop_packet (p : Packet) (rest : list SelectEvent) (idle : Z)
    (calls : list AssemblerCall) :
  (notTCPIP p ->
   loop (RecvPacket (Some p) :: rest) idle calls = loop rest idle calls /\
   loop (RecvPacket (Some p) :: rest) idle calls =
     (calls ++ omap (callOf idle) (beforeStop rest),
      if existsb isStop rest then Returned else Waiting)) /\
  (forall n tcp,
     pNetworkLayer p = Some n ->
     pTransportLayer p = Some (TransportTCP tcp) ->
     loop (RecvPacket (Some p) :: rest) idle calls =
       loop rest idle
         (calls ++ [assemble (NetworkFlow n) tcp (pTimestamp p)]) /\
     loop (RecvPacket (Some p) :: rest) idle calls =
       (calls ++ assemble (NetworkFlow n) tcp (pTimestamp p) ::
                 omap (callOf idle) (beforeStop rest),
        if existsb isStop rest then Returned else Waiting)).
Proof.
  split.
  - intros Hnot.
    assert (Hskip : loop (RecvPacket (Some p) :: rest) idle calls =
                    loop rest idle calls).
    { destruct Hnot as [Hn | [Ht | (t & Ht & Hty)]]; simpl.
      + rewrite Hn. reflexivity.
      + rewrite Ht. destruct (pNetworkLayer p); reflexivity.
      + rewrite Ht. destruct (pNetworkLayer p); simpl; [|reflexivity].
        destruct t; simpl; try reflexivity.
        exfalso. apply Hty. reflexivity. }
    split; [exact Hskip|]. rewrite Hskip. apply loop_unfold_run.
  - intros n tcp Hn Ht.
    assert (Hstep : loop (RecvPacket (Some p) :: rest) idle calls =
                    loop rest idle
                      (calls ++ [assemble (NetworkFlow n) tcp (pTimestamp p)])).
    { simpl. rewrite Hn, Ht. reflexivity. }
    split; [exact Hstep|]. rewrite Hstep, loop_unfold_run, <- app_assoc.
    reflexivity.
Qed.

Lemma loop_packet_witness :
  loop [RecvPacket (Some (Sample.udpPacket 3));
        RecvPacket (Some (Sample.tcpPacket 5)); CtxDone] 240 [] =
    ([assemble Sample.flow0 Sample.segment0 5], Returned) /\
  loop [RecvPacket (Some (Sample.arpPacket 4)); Tick 1000] 240 [] =
    ([flushOlderThan 760], Waiting) /\
  loop [RecvPacket (Some (Sample.tcpPacket 5));
        RecvPacket (Some (Sample.tcpPacket 6)); RecvPacket None;
        RecvPacket (Some (Sample.tcpPacket 7))] 240 [] =
    ([assemble Sample.flow0 Sample.segment0 5;
      assemble Sample.flow0 Sample.segment0 6], Returned).
Proof.
  split; [|split].
  - refine (proj2 (proj1 (loop_packet (Sample.udpPacket 3)
                            [RecvPacket (Some (Sample.tcpPacket 5)); CtxDone]
                            240 []) _)).
    right; right. exists TransportUDP. split; [reflexivity | discriminate].
  - refine (proj2 (proj1 (loop_packet (Sample.arpPacket 4) [Tick 1000]
                            240 []) _)).
    left. reflexivity.
  - exact (proj2 (proj2 (loop_packet (Sample.tcpPacket 5)
                           [RecvPacket (Some (Sample.tcpPacket 6));
                            RecvPacket None;
                            RecvPacket (Some (Sample.tcpPacket 7))] 240 [])
                    {| NetworkFlow := Sample.flow0 |} Sample.segment0
                    eq_refl eq_refl)).
Defined.

(** The nil packet and cancellation end the loop; a tick flushes. *)
Lemma loop_end (rest : list SelectEvent) (idle : Z)
    (calls : list AssemblerCall) :
  loop (RecvPacket None :: rest) idle calls = (calls, Returned) /\
  loop (CtxDone :: rest) idle calls = (calls, Returned) /\
  forall now, loop (Tick now :: rest) idle calls =
              loop rest idle (calls ++ [flushOlderThan (now - idle)]).
Proof. repeat split. Qed.

(** ** The port check of [run] *)

Lemma run_port_above_65536 (env : RunEnv) (o : Option) :
  65536 < Port o ->
  run env o =
  {| effects := [];
     returned := Some (Some (Go.ErrOther
                   ("ignored invalid port " +:+ Go.itoa (Port o)))) |}.
Proof.
  intros H. unfold run.
  destruct (Z.gtb_spec (Port o) 65536) as [_|Hle]; [reflexivity | lia].
Qed.

Lemma run_port_in_range (env : RunEnv) (o : Option) :
  Port o <= 65535 ->
  exists rest,
    effects (run env o) =
    createPacketsChan (Input o) (Host o) (Ip o) (Port o) :: rest.
Proof.
  intros H. unfold run.
  destruct (Z.gtb_spec (Port o) 65536) as [Hgt|_]; [lia|].
  destruct (openError env); [eexists; reflexivity|].
  destruct (loop (selectEvents env) (Idle o) []) as [calls []];
    eexists; reflexivity.
Qed.

(** C5: the port 65536 is outside the range of TCP ports and is not
    rejected: whatever the surroundings, [run] goes on to open the packet
    source with it, and when the source opens and the run is cancelled it
    returns without an error, having given the assembler the port filter
    [uint16(65536)], which is 0, "no filter". *)
Theorem run_port_65536 :
  65535 < Port (Sample.withPort Sample.defaults 65536) /\
  (forall env,
     exists rest,
       effects (run env (Sample.withPort Sample.defaults 65536)) =
       createPacketsChan "any" "" "" 65536 :: rest) /\
  run {| openError := None; selectEvents := [CtxDone] |}
      (Sample.withPort Sample.defaults 65536) =
  {| effects := [createPacketsChan "any" "" "" 65536;
                 newPrinter "" 40960;
                 newTCPAssembler false false 10240 "" 0;
                 finishAll; printerFinish];
     returned := Some None |}.
Proof.
  split; [reflexivity|]. split; [|reflexivity].
  intros env. unfold run. simpl.
  destruct (openError env); [eexists; reflexivity|].
  destruct (loop (selectEvents env) _ []) as [calls []];
    eexists; reflexivity.
Qed.

(** ** Strings *)

Lemma append_assoc (a b c : string) : (a +:+ b) +:+ c = a +:+ (b +:+ c).
Proof.
  induction a as [|x a IH]; [reflexivity|].
  change (String x ((a +:+ b) +:+ c) = String x (a +:+ (b +:+ c))).
  f_equal. exact IH.
Qed.

Lemma append_nil_r (a : string) : a +:+ "" = a.
Proof.
  induction a as [|x a IH]; [reflexivity|].
  change (String x (a +:+ "") = String x a). f_equal. exact IH.
Qed.

Lemma countNewlines_app (a b : string) :
  countNewlines (a +:+ b) = (countNewlines a + countNewlines b)%nat.
Proof.
  induction a as [|x a IH]; [reflexivity|].
  change (((if Ascii.eqb x (ascii_of_nat 10) then 1 else 0) +
           countNewlines (a +:+ b))%nat =
          ((if Ascii.eqb x (ascii_of_nat 10) then 1 else 0) +
           countNewlines a + countNewlines b)%nat).
  rewrite IH. lia.
Qed.

(** ** One turn of the consumer loops *)

Section HandlerFacts.
Context {env : Env}.

Implicit Types (h : HandlerBase) (w : World) (p : PState).

Lemma requestLoop_error h w n err s1 :
  ReadRequest (requestStream w) = (inr err, s1) ->
  requestLoop (S n) h w =
  Some (setRequest w s1 (reqCounter w)
          (if isEOF err then [] else [EvStderr (requestParseError err)])).
Proof. intros H. simpl. rewrite H. reflexivity. Qed.

Lemma requestLoop_filtered h w n r s1 :
  ReadRequest (requestStream w) = (inl r, s1) ->
  requestFiltered (option_ h) r = true ->
  requestLoop (S n) h w =
  requestLoop n h
    (setRequest w (snd (discardAll (ReaderBody (Req.Body r)) s1))
       (reqCounter w) [EvDiscardAll DirRequest (ReaderBody (Req.Body r))]).
Proof.
  intros H Hf. simpl. rewrite H, Hf.
  destruct (discardAll (ReaderBody (Req.Body r)) s1). reflexivity.
Qed.

Lemma requestLoop_emit h w n r s1 :
  ReadRequest (requestStream w) = (inl r, s1) ->
  requestFiltered (option_ h) r = false ->
  requestLoop (S n) h w =
  let seq := Go.int32 (reqCounter w + 1) in
  let p := printRequest h r (lastTimestamp s1) (LastUUID s1) seq
             {| buffer := ""; strm := s1; reads := [] |} in
  requestLoop n h
    (setRequest w (strm p) seq
       (reads p ++ [EvSend DirRequest seq (lastTimestamp s1) (buffer p)])).
Proof. intros H Hf. simpl. rewrite H, Hf. reflexivity. Qed.

Lemma responseLoop_error h w n err s1 :
  ReadResponse (responseStream w) = (inr err, s1) ->
  responseLoop (S n) h w =
  Some (setResponse w s1 (rspCounter w)
          (if isEOF err then []
           else [EvStderr (responseParseError err (clientID w))])).
Proof. intros H. simpl. rewrite H. reflexivity. Qed.

Lemma responseLoop_filtered h w n r s1 :
  ReadResponse (responseStream w) = (inl r, s1) ->
  IntSet_Contains (Status (option_ h)) (Rsp.StatusCode r) = false ->
  responseLoop (S n) h w =
  responseLoop n h
    (setResponse w (snd (discardAll (ReaderBody (Rsp.Body r)) s1))
       (rspCounter w) [EvDiscardAll DirResponse (ReaderBody (Rsp.Body r))]).
Proof.
  intros H Hf. simpl. rewrite H, Hf. simpl.
  destruct (discardAll (ReaderBody (Rsp.Body r)) s1). reflexivity.
Qed.

Lemma responseLoop_emit h w n r s1 :
  ReadResponse (responseStream w) = (inl r, s1) ->
  IntSet_Contains (Status (option_ h)) (Rsp.StatusCode r) = true ->
  responseLoop (S n) h w =
  let seq := Go.int32 (rspCounter w + 1) in
  let p := printResponse h r (lastTimestamp s1) (LastUUID s1) seq
             {| buffer := ""; strm := s1; reads := [] |} in
  responseLoop n h
    (setResponse w (strm p) seq
       (reads p ++ [EvSend DirResponse seq (lastTimestamp s1) (buffer p)])).
Proof. intros H Hf. simpl. rewrite H, Hf. reflexivity. Qed.

(** ** The request filter *)

(** What the filter computes: the method test is a substring test of the
    option against the method. *)
Lemma requestFiltered_spec (o : Option) (r : Req.Request B) :
  requestFiltered o r = true <->
  (Host o <> "" /\ wildcardMatch (Req.Host r) (Host o) = false) \/
  (Uri o <> "" /\ wildcardMatch (Req.RequestURI r) (Uri o) = false) \/
  (Method o <> "" /\ Go.Contains (Method o) (Req.Method r) = false).
Proof.
  unfold requestFiltered.
  rewrite !orb_true_iff, !andb_true_iff, !negb_true_iff, !String.eqb_neq.
  tauto.
Qed.

End HandlerFacts.

(** C1: with the method option [UNLOCK], the request [LOCK /doc] is not
    dropped although [LOCK] is not one of the methods of the list: the
    filter tests whether the method occurs inside the option's text, and a
    record is emitted for the request. *)
Theorem method_filter_substring :
  Documented.methodListed "UNLOCK" "LOCK" = false /\
  requestFiltered (env := Script.env)
    (Sample.withMethod Sample.defaults "UNLOCK") Sample.lockDoc = false /\
  List.filter isSend
    (from_option trace []
       (handleRequest 2
          (Sample.handler (Sample.withMethod Sample.defaults "UNLOCK"))
          (Sample.world [Sample.request Sample.lockDoc 200 "u1"] [] 100))) =
  [EvSend DirRequest 1 200
     (Go.newline +:+ "### REQUEST #1 u1 10.0.0.1:40000->10.0.0.2:80 200" +:+
      Go.newline +:+ "LOCK /doc HTTP/1.1" +:+ Go.newline +:+ "Host: dav" +:+
      Go.newline)].
Proof. repeat split. Qed.

(** ** The timestamp of a record *)

(** C2 (as the code has it): the timestamp given to the printer, and so
    the one in the record, is the connection's timestamp of the direction
    as it stands in the state the parser leaves, that is, read after the
    parser has returned the message; this holds for a request that passes
    the filter and for a response whose status passes the filter. *)
Theorem record_timestamp_read_after_parse {env : Env} (h : HandlerBase)
    (w : World) (n : nat) :
  (forall r s1,
     ReadRequest (requestStream w) = (inl r, s1) ->
     requestFiltered (option_ h) r = false ->
     exists seq p,
       p = printRequest h r (lastTimestamp s1) (LastUUID s1) seq
             {| buffer := ""; strm := s1; reads := [] |} /\
       requestLoop (S n) h w =
       requestLoop n h
         (setRequest w (strm p) seq
            (reads p ++
             [EvSend DirRequest seq (lastTimestamp s1) (buffer p)]))) /\
  (forall r s1,
     ReadResponse (responseStream w) = (inl r, s1) ->
     IntSet_Contains (Status (option_ h)) (Rsp.StatusCode r) = true ->
     exists seq p,
       p = printResponse h r (lastTimestamp s1) (LastUUID s1) seq
             {| buffer := ""; strm := s1; reads := [] |} /\
       responseLoop (S n) h w =
       responseLoop n h
         (setResponse w (strm p) seq
            (reads p ++
             [EvSend DirResponse seq (lastTimestamp s1) (buffer p)]))).
Proof.
  split; intros r s1 Hread Hpass.
  - eexists _, _. split; [reflexivity|].
    apply (requestLoop_emit h w n r s1 Hread Hpass).
  - eexists _, _. split; [reflexivity|].
    apply (responseLoop_emit h w n r s1 Hread Hpass).
Qed.

Lemma record_timestamp_read_after_parse_witness :
  let h := Sample.handler (Sample.fastResp "header") in
  let w := Sample.world [Sample.request Sample.getX 200 "u1"]
             [Sample.response Sample.ok200 250 "u2"] 100 in
  (exists seq p,
     p = printRequest h Sample.getX 200 "u1" seq
           {| buffer := ""; strm := Sample.streamAt [] 200 "u1";
              reads := [] |} /\
     requestLoop 2 h w =
     requestLoop 1 h
       (setRequest w (strm p) seq
          (reads p ++ [EvSend DirRequest seq 200 (buffer p)]))) /\
  (exists seq p,
     p = printResponse h Sample.ok200 250 "u2" seq
           {| buffer := ""; strm := Sample.streamAt [] 250 "u2";
              reads := [] |} /\
     responseLoop 2 h w =
     responseLoop 1 h
       (setResponse w (strm p) seq
          (reads p ++ [EvSend DirResponse seq 250 (buffer p)]))).
Proof.
  intros h w.
  destruct (record_timestamp_read_after_parse (env := Script.env) h w 1)
    as [Hreq Hrsp].
  split.
  - exact (Hreq Sample.getX _ eq_refl eq_refl).
  - exact (Hrsp Sample.ok200 _ eq_refl eq_refl).
Defined.

(** C2, as stated, fails: the connection's request timestamp stands at 100
    when the parser is called and at 200 when it returns the request (the
    segment that carries it arrived meanwhile); the record carries 200. *)
Lemma record_timestamp_not_read_before_parse :
  let h := Sample.handler (Sample.fastResp "header") in
  let w := Sample.world [Sample.request Sample.getX 200 "u1"] [] 100 in
  lastTimestamp (requestStream w) = 100 /\
  List.filter isSend (from_option trace [] (handleRequest 2 h w)) =
  [EvSend DirRequest 1 200
     (Go.newline +:+ "### REQUEST #1 u1 10.0.0.1:40000->10.0.0.2:80 200" +:+
      Go.newline +:+ "GET /x HTTP/1.1" +:+ Go.newline +:+ "Host: a" +:+
      Go.newline)] /\
  ~ (forall d seq stamp text,
       In (EvSend d seq stamp text)
          (from_option trace [] (handleRequest 2 h w)) ->
       stamp = lastTimestamp (requestStream w)).
Proof.
  intros h w. split; [reflexivity|]. split; [reflexivity|].
  intros H.
  specialize (H DirRequest 1 200 _ (or_introl eq_refl)).
  discriminate H.
Qed.

(** ** The printers *)

Section PrinterFacts.
Context {env : Env}.

Implicit Types (h : HandlerBase) (p : PState).

Lemma extends_refl p : extends p p.
Proof. exists "". symmetry. apply append_nil_r. Qed.

Lemma extends_trans p q r : extends p q -> extends q r -> extends p r.
Proof.
  intros [x Hx] [y Hy]. exists (x +:+ y).
  rewrite Hy, Hx. apply append_assoc.
Qed.

Lemma extends_writeLine a p : extends p (writeLine a p).
Proof. eexists. reflexivity. Qed.

Lemma extends_discardAllP d rd p : extends p (snd (discardAllP d rd p)).
Proof.
  unfold discardAllP. destruct (discardAll rd (strm p)).
  exists "". simpl. symmetry. apply append_nil_r.
Qed.

Lemma extends_printBodyP h d hd b p : extends p (printBodyP h d hd b p).
Proof.
  unfold printBodyP. destruct (printBody h hd b (strm p)).
  eexists. reflexivity.
Qed.

Lemma writeRawHeaders hs p :
  let q := fold_left (fun p header => writeLine [header] p) hs p in
  strm q = strm p /\ reads q = reads p /\ extends p q.
Proof.
  revert p. induction hs as [|x hs IH]; intros p; simpl.
  - repeat split. apply extends_refl.
  - destruct (IH (writeLine [x] p)) as (Hs & Hr & He).
    repeat split; [exact Hs | exact Hr |].
    eapply extends_trans; [apply extends_writeLine | exact He].
Qed.

Lemma requestHasBody_false (r : Req.Request B) :
  requestHasBody r = false <->
  Req.ContentLength r = 0 \/ Req.Method r = "GET" \/ Req.Method r = "HEAD" \/
  Req.Method r = "TRACE" \/ Req.Method r = "OPTIONS".
Proof.
  unfold requestHasBody.
  destruct (_ || _) eqn:E.
  - rewrite !orb_true_iff, !String.eqb_eq, Z.eqb_eq in E. tauto.
  - rewrite !orb_false_iff, !String.eqb_neq, Z.eqb_neq in E.
    split; [discriminate | tauto].
Qed.

Lemma responseHasBody_false (r : Rsp.Response B) :
  responseHasBody r = false <->
  Rsp.ContentLength r = 0 \/ Rsp.StatusCode r = 204 \/ Rsp.StatusCode r = 304.
Proof.
  unfold responseHasBody.
  destruct (_ || _) eqn:E.
  - rewrite !orb_true_iff, !Z.eqb_eq in E. tauto.
  - rewrite !orb_false_iff, !Z.eqb_neq in E.
    split; [discriminate | tauto].
Qed.

Lemma printRequest_no_body h (r : Req.Request B) t u seq p :
  requestHasBody r = false ->
  strm (printRequest h r t u seq p) = strm p /\
  reads (printRequest h r t u seq p) = reads p.
Proof.
  intros Hb. unfold printRequest. rewrite Hb.
  destruct (String.eqb (Level (option_ h)) "url"); [split; reflexivity|].
  destruct (String.eqb (Level (option_ h)) "header"); split; reflexivity.
Qed.

Lemma printResponseBody_no_body h (r : Rsp.Response B) t u seq p :
  responseHasBody r = false ->
  strm (printResponseBody h r t u seq p) = strm p /\
  reads (printResponseBody h r t u seq p) = reads p.
Proof.
  intros Hb. unfold printResponseBody. rewrite Hb.
  destruct (negb (Resp (option_ h)) || _); [split; reflexivity|].
  match goal with
  | |- context [fold_left ?f ?hs ?q] =>
      destruct (writeRawHeaders hs q) as (Hs & Hr & _)
  end.
  destruct (String.eqb (Level (option_ h)) "header");
    split; (rewrite Hs || rewrite Hr); reflexivity.
Qed.

(** The deferred call of [printResponse]: one drain of [r.Body], after
    everything else. *)
Lemma printResponse_deferred h (r : Rsp.Response B) t u seq p :
  let q := printResponseBody h r t u seq p in
  buffer (printResponse h r t u seq p) = buffer q /\
  strm (printResponse h r t u seq p) =
    snd (discardAll (ReaderBody (Rsp.Body r)) (strm q)) /\
  reads (printResponse h r t u seq p) =
    reads q ++ [EvDiscardAll DirResponse (ReaderBody (Rsp.Body r))].
Proof.
  intros q. unfold printResponse, discardAllP. fold q.
  destruct (discardAll (ReaderBody (Rsp.Body r)) (strm q)).
  repeat split.
Qed.

End PrinterFacts.

(** ** Bodies *)

Lemma printRequest_reads_exact {env : Env} (h : HandlerBase)
    (r : Req.Request B) t u seq p :
  reads (printRequest h r t u seq p) =
  reads p ++
  (if String.eqb (Level (option_ h)) "url" then []
   else if requestHasBody r then
     [if String.eqb (Level (option_ h)) "header"
      then EvDiscardAll DirRequest (ReaderBody (Req.Body r))
      else EvPrintBody DirRequest (Req.Body r)]
   else []).
Proof.
  unfold printRequest, discardAllP, printBodyP.
  destruct (String.eqb (Level (option_ h)) "url");
    [cbn; rewrite app_nil_r; reflexivity|].
  destruct (String.eqb (Level (option_ h)) "header"), (requestHasBody r);
    cbn; rewrite ?app_nil_r; try reflexivity.
  - destruct (discardAll _ _). reflexivity.
  - destruct (printBody _ _ _ _). reflexivity.
Qed.

Lemma printResponse_reads_exact {env : Env} (h : HandlerBase)
    (r : Rsp.Response B) t u seq p :
  reads (printResponse h r t u seq p) =
  reads p ++
  (if negb (Resp (option_ h)) || String.eqb (Level (option_ h)) "url" then []
   else if responseHasBody r then
     [if String.eqb (Level (option_ h)) "header"
      then EvDiscardAll DirResponse (ReaderBody (Rsp.Body r))
      else EvPrintBody DirResponse (Rsp.Body r)]
   else []) ++
  [EvDiscardAll DirResponse (ReaderBody (Rsp.Body r))].
Proof.
  destruct (printResponse_deferred h r t u seq p) as (_ & _ & Hd).
  rewrite Hd, app_assoc. f_equal. clear Hd.
  unfold printResponseBody, discardAllP, printBodyP.
  destruct (negb (Resp (option_ h)) || _);
    [rewrite app_nil_r; reflexivity|].
  match goal with
  | |- context [fold_left ?f ?hs ?q] =>
      destruct (writeRawHeaders hs q) as (_ & Hr & _);
      set (p3 := fold_left f hs q) in *
  end.
  cbn in Hr.
  destruct (String.eqb (Level (option_ h)) "header"), (responseHasBody r);
    cbn; rewrite ?app_nil_r; try exact Hr.
  - destruct (discardAll _ _). cbn. rewrite Hr. reflexivity.
  - destruct (printBody _ _ _ _). cbn. rewrite Hr. reflexivity.
Qed.

(** C3 (as the code has it): at a level other than [url], [printRequest]
    reads the body of a request, for the size note at level [header] and
    for printing otherwise, exactly when the content length is not 0 and
    the method is none of GET, HEAD, TRACE, OPTIONS, and otherwise reads
    nothing; [printResponse] (with [Resp] set) reads the body of a response
    for the record exactly when the content length is not 0 and the status
    is neither 204 nor 304; besides, it drains [r.Body] once on return,
    for every response, a body being expected or not.  At level [url] no
    request body is read at all, and a response gets that drain only. *)
Theorem body_presence {env : Env} (h : HandlerBase) :
  (forall r t u seq p,
     let q := printRequest h r t u seq p in
     let noBody :=
       Req.ContentLength r = 0 \/ Req.Method r = "GET" \/
       Req.Method r = "HEAD" \/ Req.Method r = "TRACE" \/
       Req.Method r = "OPTIONS" in
     (Level (option_ h) = "url" -> reads q = reads p /\ strm q = strm p) /\
     (Level (option_ h) <> "url" ->
      (noBody -> reads q = reads p /\ strm q = strm p) /\
      (~ noBody ->
       reads q =
       reads p ++
       [if String.eqb (Level (option_ h)) "header"
        then EvDiscardAll DirRequest (ReaderBody (Req.Body r))
        else EvPrintBody DirRequest (Req.Body r)]))) /\
  (forall r t u seq p,
     let q := printResponse h r t u seq p in
     let drain := EvDiscardAll DirResponse (ReaderBody (Rsp.Body r)) in
     let noBody :=
       Rsp.ContentLength r = 0 \/ Rsp.StatusCode r = 204 \/
       Rsp.StatusCode r = 304 in
     (Resp (option_ h) = false \/ Level (option_ h) = "url" ->
      reads q = reads p ++ [drain]) /\
     (Resp (option_ h) = true -> Level (option_ h) <> "url" ->
      (noBody -> reads q = reads p ++ [drain]) /\
      (~ noBody ->
       reads q =
       reads p ++
       [if String.eqb (Level (option_ h)) "header" then drain
        else EvPrintBody DirResponse (Rsp.Body r); drain]))).
Proof.
  split.
  - intros r t u seq p q noBody. subst q.
    pose proof (printRequest_reads_exact h r t u seq p) as Hreads.
    split.
    + intros Hl. rewrite Hl in Hreads. cbn in Hreads.
      rewrite app_nil_r in Hreads. split; [exact Hreads|].
      unfold printRequest. rewrite Hl. reflexivity.
    + intros Hl. apply String.eqb_neq in Hl. rewrite Hl in Hreads.
      split.
      * intros Hno. apply requestHasBody_false in Hno.
        destruct (printRequest_no_body h r t u seq p Hno) as [Hs Hr].
        split; [exact Hr | exact Hs].
      * intros Hyes. destruct (requestHasBody r) eqn:Hb; [exact Hreads|].
        exfalso. apply Hyes. apply requestHasBody_false. exact Hb.
  - intros r t u seq p q drain noBody. subst q drain.
    pose proof (printResponse_reads_exact h r t u seq p) as Hreads.
    split.
    + intros Hguard.
      assert (Hg : negb (Resp (option_ h)) ||
                   String.eqb (Level (option_ h)) "url" = true).
      { destruct Hguard as [Hr|Hl]; [rewrite Hr; reflexivity|].
        rewrite Hl. apply orb_true_r. }
      rewrite Hg in Hreads. exact Hreads.
    + intros Hr Hl. apply String.eqb_neq in Hl.
      rewrite Hr, Hl in Hreads. cbn [negb orb] in Hreads.
      split.
      * intros Hno. apply responseHasBody_false in Hno.
        rewrite Hno in Hreads. exact Hreads.
      * intros Hyes. destruct (responseHasBody r) eqn:Hb; [exact Hreads|].
        exfalso. apply Hyes. apply responseHasBody_false. exact Hb.
Qed.

Lemma body_presence_witness :
  let header := Sample.handler (Sample.fastResp "header") in
  let all := Sample.handler (Sample.fastResp "all") in
  let url := Sample.handler (Sample.fastResp "url") in
  let p := {| buffer := ""; strm := Sample.streamAt [] 200 "u1";
              reads := [] |} in
  (reads (printRequest url Sample.postForm 200 "u1" 1 p) = [] /\
   reads (printRequest all Sample.getX 200 "u1" 1 p) = [] /\
   reads (printRequest header Sample.postForm 200 "u1" 1 p) =
     [EvDiscardAll DirRequest (ReaderBody "k=v")] /\
   reads (printRequest all Sample.postForm 200 "u1" 1 p) =
     [EvPrintBody DirRequest "k=v"]) /\
  (reads (printResponse url Sample.ok200 200 "u1" 1 p) =
     [EvDiscardAll DirResponse (ReaderBody "abc")] /\
   reads (printResponse all Sample.noContent204 200 "u1" 1 p) =
     [EvDiscardAll DirResponse (ReaderBody "")] /\
   reads (printResponse header Sample.ok200 200 "u1" 1 p) =
     [EvDiscardAll DirResponse (ReaderBody "abc");
      EvDiscardAll DirResponse (ReaderBody "abc")] /\
   reads (printResponse all Sample.ok200 200 "u1" 1 p) =
     [EvPrintBody DirResponse "abc";
      EvDiscardAll DirResponse (ReaderBody "abc")]).
Proof.
  intros header all url p.
  assert (HnoGet : Req.ContentLength Sample.getX = 0 \/
                   Req.Method Sample.getX = "GET" \/
                   Req.Method Sample.getX = "HEAD" \/
                   Req.Method Sample.getX = "TRACE" \/
                   Req.Method Sample.getX = "OPTIONS")
    by (left; reflexivity).
  assert (HyesPost : ~ (Req.ContentLength Sample.postForm = 0 \/
                        Req.Method Sample.postForm = "GET" \/
                        Req.Method Sample.postForm = "HEAD" \/
                        Req.Method Sample.postForm = "TRACE" \/
                        Req.Method Sample.postForm = "OPTIONS"))
    by (intros [H|[H|[H|[H|H]]]]; discriminate H).
  assert (Hno204 : Rsp.ContentLength Sample.noContent204 = 0 \/
                   Rsp.StatusCode Sample.noContent204 = 204 \/
                   Rsp.StatusCode Sample.noContent204 = 304)
    by (right; left; reflexivity).
  assert (Hyes200 : ~ (Rsp.ContentLength Sample.ok200 = 0 \/
                       Rsp.StatusCode Sample.ok200 = 204 \/
                       Rsp.StatusCode Sample.ok200 = 304))
    by (intros [H|[H|H]]; discriminate H).
  split.
  - split; [|split; [|split]].
    + exact (proj1 (proj1 (proj1 (body_presence (env := Script.env) url)
                             Sample.postForm 200 "u1" 1 p) eq_refl)).
    + refine (proj1 (proj1 (proj2 (proj1 (body_presence (env := Script.env)
                                            all)
                               Sample.getX 200 "u1" 1 p) _) HnoGet)).
      discriminate.
    + refine (proj2 (proj2 (proj1 (body_presence (env := Script.env) header)
                              Sample.postForm 200 "u1" 1 p) _) HyesPost).
      discriminate.
    + refine (proj2 (proj2 (proj1 (body_presence (env := Script.env) all)
                              Sample.postForm 200 "u1" 1 p) _) HyesPost).
      discriminate.
  - split; [|split; [|split]].
    + refine (proj1 (proj2 (body_presence (env := Script.env) url)
                       Sample.ok200 200 "u1" 1 p) _).
      right. reflexivity.
    + refine (proj1 (proj2 (proj2 (body_presence (env := Script.env) all)
                              Sample.noContent204 200 "u1" 1 p)
                       eq_refl _) Hno204).
      discriminate.
    + refine (proj2 (proj2 (proj2 (body_presence (env := Script.env) header)
                              Sample.ok200 200 "u1" 1 p)
                       eq_refl _) Hyes200).
      discriminate.
    + refine (proj2 (proj2 (proj2 (body_presence (env := Script.env) all)
                              Sample.ok200 200 "u1" 1 p)
                       eq_refl _) Hyes200).
      discriminate.
Defined.

(** C3, as stated, fails on its last part: for the response [204 No
    Content] at level [header] no body is expected, and the printer still
    reads the body: the deferred [discardAll(r.Body)]. *)
Lemma body_read_without_body :
  let h := Sample.handler (Sample.fastResp "header") in
  let p := {| buffer := ""; strm := Sample.streamAt [] 200 "u1";
              reads := [] |} in
  responseHasBody Sample.noContent204 = false /\
  reads (printResponse h Sample.noContent204 200 "u1" 1 p) =
    [EvDiscardAll DirResponse (ReaderBody "")] /\
  ~ (responseHasBody Sample.noContent204 = false ->
     List.filter isBodyRead
       (reads (printResponse h Sample.noContent204 200 "u1" 1 p)) = []).
Proof.
  intros h p. split; [reflexivity|]. split; [reflexivity|].
  intros H. specialize (H eq_refl). discriminate H.
Qed.

(** ** The first lines of a record *)

Section BannerFacts.
Context {env : Env}.

Lemma printRequest_buffer (h : HandlerBase) (r : Req.Request B) t u seq s :
  String.eqb (Level (option_ h)) "url" = false ->
  exists rest,
    buffer (printRequest h r t u seq
              {| buffer := ""; strm := s; reads := [] |}) =
    Go.Sprintln [requestBanner h t u seq] +:+
    Go.Sprintln [Req.Method r; Req.RequestURI r; Req.Proto r] +:+ rest.
Proof.
  intros Hl. unfold printRequest. rewrite Hl.
  set (p0 := {| buffer := ""; strm := s; reads := [] |}).
  set (p2 := printHeaderP h (Req.Header r)
               (writeLine [Req.Method r; Req.RequestURI r; Req.Proto r]
                  (writeLine [requestBanner h t u seq] p0))).
  assert (Hp2 : buffer p2 =
                Go.Sprintln [requestBanner h t u seq] +:+
                Go.Sprintln [Req.Method r; Req.RequestURI r; Req.Proto r] +:+
                printHeader h (Req.Header r)).
  { unfold p2. simpl. rewrite !append_assoc. reflexivity. }
  assert (Hext : forall q, extends p2 q ->
            exists rest, buffer q =
              Go.Sprintln [requestBanner h t u seq] +:+
              Go.Sprintln [Req.Method r; Req.RequestURI r; Req.Proto r] +:+
              rest).
  { intros q [x Hx]. exists (printHeader h (Req.Header r) +:+ x).
    rewrite Hx, Hp2, !append_assoc. reflexivity. }
  apply Hext.
  destruct (String.eqb (Level (option_ h)) "header"),
           (requestHasBody r); try apply extends_refl.
  - pose proof (extends_discardAllP DirRequest (ReaderBody (Req.Body r)) p2)
      as He.
    destruct (discardAllP DirRequest (ReaderBody (Req.Body r)) p2) as [k q].
    eapply extends_trans; [exact He | apply extends_writeLine].
  - eapply extends_trans; [apply extends_writeLine | apply extends_printBodyP].
Qed.

Lemma printResponse_buffer (h : HandlerBase) (r : Rsp.Response B) t u seq s :
  Resp (option_ h) = true ->
  String.eqb (Level (option_ h)) "url" = false ->
  exists rest,
    buffer (printResponse h r t u seq
              {| buffer := ""; strm := s; reads := [] |}) =
    Go.Sprintln [responseBanner h t u seq] +:+
    Go.Sprintln [Rsp.StatusLine r] +:+ rest.
Proof.
  intros Hr Hl.
  destruct (printResponse_deferred h r t u seq
              {| buffer := ""; strm := s; reads := [] |}) as (Hb & _ & _).
  rewrite Hb. clear Hb.
  unfold printResponseBody. rewrite Hr, Hl. simpl negb. simpl orb.
  set (p0 := {| buffer := ""; strm := s; reads := [] |}).
  set (p2 := writeLine [Rsp.StatusLine r]
               (writeLine [responseBanner h t u seq] p0)).
  assert (Hext : forall q, extends p2 q ->
            exists rest, buffer q =
              Go.Sprintln [responseBanner h t u seq] +:+
              Go.Sprintln [Rsp.StatusLine r] +:+ rest).
  { intros q [x Hx]. exists x. rewrite Hx. unfold p2. simpl.
    rewrite !append_assoc. reflexivity. }
  apply Hext.
  destruct (writeRawHeaders (Rsp.RawHeaders r) p2) as (_ & _ & He3).
  set (p3 := fold_left _ (Rsp.RawHeaders r) p2) in *.
  destruct (String.eqb (Level (option_ h)) "header"),
           (responseHasBody r); try exact He3.
  - pose proof (extends_discardAllP DirResponse (ReaderBody (Rsp.Body r)) p3)
      as He.
    destruct (discardAllP DirResponse (ReaderBody (Rsp.Body r)) p3) as [k q].
    eapply extends_trans; [exact He3|].
    eapply extends_trans; [exact He | apply extends_writeLine].
  - eapply extends_trans; [exact He3|].
    eapply extends_trans; [apply extends_writeLine | apply extends_printBodyP].
Qed.

End BannerFacts.




(** ** The two directions of a connection *)

Section DirectionFacts.
Context {env : Env}.

Implicit Types (h : HandlerBase) (w : World) (p : PState).

Lemma bodyReads_not_stderr (evs : list (Event B)) :
  forallb isBodyRead evs = true ->
  List.filter isStderr evs = [] /\ List.filter isSend evs = [].
Proof.
  induction evs as [|e evs IH]; simpl; [split; reflexivity|].
  intros H. apply andb_true_iff in H as [He Hevs].
  destruct (IH Hevs) as [H1 H2].
  destruct e; simpl in *; try discriminate; split; assumption.
Qed.

Lemma printRequest_reads h (r : Req.Request B) t u seq s :
  forallb isBodyRead
    (reads (printRequest h r t u seq
              {| buffer := ""; strm := s; reads := [] |})) = true.
Proof.
  unfold printRequest, discardAllP, printBodyP.
  destruct (String.eqb (Level (option_ h)) "url"); [reflexivity|].
  destruct (String.eqb (Level (option_ h)) "header"),
           (requestHasBody r); simpl; try reflexivity.
  - destruct (discardAll _ _). reflexivity.
  - destruct (printBody _ _ _ _). reflexivity.
Qed.

Lemma printResponse_reads h (r : Rsp.Response B) t u seq s :
  forallb isBodyRead
    (reads (printResponse h r t u seq
              {| buffer := ""; strm := s; reads := [] |})) = true.
Proof.
  destruct (printResponse_deferred h r t u seq
              {| buffer := ""; strm := s; reads := [] |}) as (_ & _ & Hd).
  rewrite Hd, forallb_app. simpl. rewrite andb_true_r. clear Hd.
  unfold printResponseBody, discardAllP, printBodyP.
  destruct (negb (Resp (option_ h)) || _); [reflexivity|].
  match goal with
  | |- context [fold_left ?f ?hs ?q] =>
      destruct (writeRawHeaders hs q) as (Hs & Hr & _);
      set (p3 := fold_left f hs q) in *
  end.
  simpl in Hr.
  destruct (String.eqb (Level (option_ h)) "header"),
           (responseHasBody r); simpl; try (rewrite Hr; reflexivity).
  - destruct (discardAll _ _). simpl. rewrite Hr. reflexivity.
  - destruct (printBody _ _ _ _). simpl. rewrite Hr. reflexivity.
Qed.

(** The request loop adds to the trace, logs at most once, and leaves the
    response side alone. *)
Lemma requestLoop_trace fuel h w w' :
  requestLoop fuel h w = Some w' ->
  sameResponseSide w w' /\
  exists evs, trace w' = trace w ++ evs /\
              (length (List.filter isStderr evs) <= 1)%nat.
Proof.
  revert w. induction fuel as [|fuel IH]; intros w; [discriminate|].
  simpl. destruct (ReadRequest (requestStream w)) as [[r|err] s1].
  - destruct (requestFiltered (option_ h) r).
    + destruct (discardAll (ReaderBody (Req.Body r)) s1) as [k s2].
      intros H. destruct (IH _ H) as (Hside & evs & Ht & Hc).
      split; [exact Hside|].
      eexists. split; [rewrite Ht; simpl; rewrite <- app_assoc; reflexivity|].
      simpl. exact Hc.
    + intros H. destruct (IH _ H) as (Hside & evs & Ht & Hc).
      split; [exact Hside|].
      eexists. split; [rewrite Ht; simpl; rewrite <- app_assoc; reflexivity|].
      rewrite !List.filter_app.
      destruct (bodyReads_not_stderr _
                  (printRequest_reads h r (lastTimestamp s1) (LastUUID s1)
                     (Go.int32 (reqCounter w + 1)) s1)) as [Hn _].
      rewrite Hn. simpl. exact Hc.
  - intros H. injection H as <-. split; [repeat split|].
    eexists. split; [reflexivity|]. destruct (isEOF err); simpl; lia.
Qed.

Lemma responseLoop_trace fuel h w w' :
  responseLoop fuel h w = Some w' ->
  sameRequestSide w w' /\
  exists evs, trace w' = trace w ++ evs /\
              (length (List.filter isStderr evs) <= 1)%nat.
Proof.
  revert w. induction fuel as [|fuel IH]; intros w; [discriminate|].
  simpl. destruct (ReadResponse (responseStream w)) as [[r|err] s1].
  - destruct (negb (IntSet_Contains (Status (option_ h)) (Rsp.StatusCode r))).
    + destruct (discardAll (ReaderBody (Rsp.Body r)) s1) as [k s2].
      intros H. destruct (IH _ H) as (Hside & evs & Ht & Hc).
      split; [exact Hside|].
      eexists. split; [rewrite Ht; simpl; rewrite <- app_assoc; reflexivity|].
      simpl. exact Hc.
    + intros H. destruct (IH _ H) as (Hside & evs & Ht & Hc).
      split; [exact Hside|].
      eexists. split; [rewrite Ht; simpl; rewrite <- app_assoc; reflexivity|].
      rewrite !List.filter_app.
      destruct (bodyReads_not_stderr _
                  (printResponse_reads h r (lastTimestamp s1) (LastUUID s1)
                     (Go.int32 (rspCounter w + 1)) s1)) as [Hn _].
      rewrite Hn. simpl. exact Hc.
  - intros H. injection H as <-. split; [repeat split|].
    eexists. split; [reflexivity|]. destruct (isEOF err); simpl; lia.
Qed.

(** What a loop does is a function of its own side of the connection. *)
Lemma responseLoop_local fuel h w1 w2 :
  sameResponseSide w1 w2 ->
  sameOutcome sameResponseSide w1 w2
    (responseLoop fuel h w1) (responseLoop fuel h w2).
Proof.
  revert w1 w2. induction fuel as [|fuel IH]; intros w1 w2 Hs;
    [exact I|].
  destruct Hs as (Hstream & Hcount & Hclient). simpl.
  rewrite <- Hstream, <- Hcount, <- Hclient.
  destruct (ReadResponse (responseStream w1)) as [[r|err] s1].
  - destruct (negb (IntSet_Contains (Status (option_ h)) (Rsp.StatusCode r))).
    + destruct (discardAll (ReaderBody (Rsp.Body r)) s1) as [k s2].
      match goal with
      | |- sameOutcome _ _ _ (responseLoop _ _ ?a) (responseLoop _ _ ?b) =>
          specialize (IH a b (conj eq_refl (conj eq_refl Hclient)));
          destruct (responseLoop fuel h a), (responseLoop fuel h b);
          try exact IH
      end.
      destruct IH as (Hside & evs & Ha & Hb). split; [exact Hside|].
      eexists. simpl in Ha, Hb. rewrite <- app_assoc in Ha, Hb.
      split; [exact Ha | exact Hb].
    + match goal with
      | |- sameOutcome _ _ _ (responseLoop _ _ ?a) (responseLoop _ _ ?b) =>
          specialize (IH a b (conj eq_refl (conj eq_refl Hclient)));
          destruct (responseLoop fuel h a), (responseLoop fuel h b);
          try exact IH
      end.
      destruct IH as (Hside & evs & Ha & Hb). split; [exact Hside|].
      eexists. simpl in Ha, Hb. rewrite <- app_assoc in Ha, Hb.
      split; [exact Ha | exact Hb].
  - simpl. split; [repeat split; assumption|].
    eexists. split; reflexivity.
Qed.

Lemma requestLoop_local fuel h w1 w2 :
  sameRequestSide w1 w2 ->
  sameOutcome sameRequestSide w1 w2
    (requestLoop fuel h w1) (requestLoop fuel h w2).
Proof.
  revert w1 w2. induction fuel as [|fuel IH]; intros w1 w2 Hs;
    [exact I|].
  destruct Hs as (Hstream & Hcount). simpl.
  rewrite <- Hstream, <- Hcount.
  destruct (ReadRequest (requestStream w1)) as [[r|err] s1].
  - destruct (requestFiltered (option_ h) r).
    + destruct (discardAll (ReaderBody (Req.Body r)) s1) as [k s2].
      match goal with
      | |- sameOutcome _ _ _ (requestLoop _ _ ?a) (requestLoop _ _ ?b) =>
          specialize (IH a b (conj eq_refl eq_refl));
          destruct (requestLoop fuel h a), (requestLoop fuel h b);
          try exact IH
      end.
      destruct IH as (Hside & evs & Ha & Hb). split; [exact Hside|].
      eexists. simpl in Ha, Hb. rewrite <- app_assoc in Ha, Hb.
      split; [exact Ha | exact Hb].
    + match goal with
      | |- sameOutcome _ _ _ (requestLoop _ _ ?a) (requestLoop _ _ ?b) =>
          specialize (IH a b (conj eq_refl eq_refl));
          destruct (requestLoop fuel h a), (requestLoop fuel h b);
          try exact IH
      end.
      destruct IH as (Hside & evs & Ha & Hb). split; [exact Hside|].
      eexists. simpl in Ha, Hb. rewrite <- app_assoc in Ha, Hb.
      split; [exact Ha | exact Hb].
  - simpl. split; [repeat split; assumption|].
    eexists. split; reflexivity.
Qed.

End DirectionFacts.

(** ** Level [url] *)

(** C6 (as the code has it): at level [url] a request that passes the
    filter yields one record and nothing else, the line made of the method,
    a space, and the host followed by the request URI (one line, when none
    of them holds a newline); a response whose status passes the filter
    yields an empty record, without any line: no banner, no status line,
    no header, no body, no body-size note; its body is drained.  This is
    what the loop does next whatever follows; every run that returns has
    these events, in this place, in its trace; and when the stream ends
    after the message (the next call of the parser returns an error) the
    loop returns, with any fuel of two or more, having done exactly this
    and what the error calls for. *)
Theorem level_url {env : Env} (h : HandlerBase) (w : World) (n : nat) :
  Level (option_ h) = "url" ->
  (forall r s1,
     ReadRequest (requestStream w) = (inl r, s1) ->
     requestFiltered (option_ h) r = false ->
     let seq := Go.int32 (reqCounter w + 1) in
     let line := Req.Method r +:+ " " +:+ Req.Host r +:+ Req.RequestURI r +:+
                 Go.newline in
     let w1 := setRequest w s1 seq
                 [EvSend DirRequest seq (lastTimestamp s1) line] in
     requestLoop (S n) h w = requestLoop n h w1 /\
     (countNewlines (Req.Method r) = O ->
      countNewlines (Req.Host r) = O ->
      countNewlines (Req.RequestURI r) = O ->
      countNewlines line = 1%nat) /\
     (forall w',
        requestLoop (S n) h w = Some w' ->
        exists evs,
          trace w' =
          trace w ++ EvSend DirRequest seq (lastTimestamp s1) line :: evs) /\
     (forall err s2,
        ReadRequest s1 = (inr err, s2) ->
        requestLoop (S (S n)) h w =
        Some (setRequest w1 s2 seq
                (if isEOF err then []
                 else [EvStderr (requestParseError err)])))) /\
  (forall r s1,
     ReadResponse (responseStream w) = (inl r, s1) ->
     IntSet_Contains (Status (option_ h)) (Rsp.StatusCode r) = true ->
     let seq := Go.int32 (rspCounter w + 1) in
     let body := ReaderBody (Rsp.Body r) in
     let s2 := snd (discardAll body s1) in
     let w1 := setResponse w s2 seq
                 [EvDiscardAll DirResponse body;
                  EvSend DirResponse seq (lastTimestamp s1) ""] in
     responseLoop (S n) h w = responseLoop n h w1 /\
     (forall w',
        responseLoop (S n) h w = Some w' ->
        exists evs,
          trace w' =
          trace w ++ EvDiscardAll DirResponse body ::
                     EvSend DirResponse seq (lastTimestamp s1) "" :: evs) /\
     (forall err s3,
        ReadResponse s2 = (inr err, s3) ->
        responseLoop (S (S n)) h w =
        Some (setResponse w1 s3 seq
                (if isEOF err then []
                 else [EvStderr (responseParseError err (clientID w))])))).
Proof.
  intros Hurl. split; intros r s1 Hread Hpass.
  - intros seq line w1.
    assert (Hstep : requestLoop (S n) h w = requestLoop n h w1).
    { rewrite (requestLoop_emit h w n r s1 Hread Hpass). simpl.
      unfold printRequest. rewrite Hurl. simpl.
      unfold Go.Sprintln. simpl. rewrite !append_assoc. reflexivity. }
    assert (Hstep2 : requestLoop (S (S n)) h w = requestLoop (S n) h w1).
    { rewrite (requestLoop_emit h w (S n) r s1 Hread Hpass). cbv zeta.
      unfold printRequest. rewrite Hurl.
      cbn [String.eqb Ascii.eqb Bool.eqb writeLine buffer strm reads app].
      unfold Go.Sprintln. cbn [Go.joinSpace String.append].
      rewrite !append_assoc. reflexivity. }
    split; [exact Hstep|]. split; [|split].
    + intros Hm Hh Hu. unfold line.
      rewrite !countNewlines_app, Hm, Hh, Hu. reflexivity.
    + intros w' Hw'. rewrite Hstep in Hw'.
      destruct (requestLoop_trace n h w1 w' Hw') as (_ & evs & Ht & _).
      exists evs. rewrite Ht. unfold w1. cbn [trace setRequest].
      rewrite <- app_assoc. reflexivity.
    + intros err s2 Herr. rewrite Hstep2.
      apply (requestLoop_error h w1 n err s2). exact Herr.
  - intros seq body s2 w1.
    assert (Hprint : forall m,
              responseLoop (S m) h w = responseLoop m h w1).
    { intros m. rewrite (responseLoop_emit h w m r s1 Hread Hpass).
      cbv zeta. unfold printResponse, printResponseBody, discardAllP.
      rewrite Hurl, orb_true_r. cbn [strm buffer reads].
      unfold w1, s2, body.
      destruct (discardAll (ReaderBody (Rsp.Body r)) s1). reflexivity. }
    split; [apply Hprint|]. split.
    + intros w' Hw'. rewrite Hprint in Hw'.
      destruct (responseLoop_trace n h w1 w' Hw') as (_ & evs & Ht & _).
      exists evs. rewrite Ht. unfold w1. cbn [trace setResponse].
      rewrite <- app_assoc. reflexivity.
    + intros err s3 Herr. rewrite Hprint.
      apply (responseLoop_error h w1 n err s3). exact Herr.
Qed.

Lemma level_url_witness :
  let h := Sample.handler (Sample.fastResp "url") in
  let w := Sample.world [Sample.request Sample.postForm 200 "u1"]
             [Sample.response Sample.ok200 250 "u2"] 100 in
  (requestLoop 2 h w =
   Some (setRequest
           (setRequest w (Sample.streamAt [] 200 "u1") 1
              [EvSend DirRequest 1 200 ("POST a/form" +:+ Go.newline)])
           (Sample.streamAt [] 200 "u1") 1 []) /\
   countNewlines ("POST a/form" +:+ Go.newline) = 1%nat) /\
  responseLoop 2 h w =
  Some (setResponse
          (setResponse w (Sample.streamAt [] 250 "u2") 1
             [EvDiscardAll DirResponse (ReaderBody "abc");
              EvSend DirResponse 1 250 ""])
          (Sample.streamAt [] 250 "u2") 1 []).
Proof.
  intros h w.
  destruct (level_url (env := Script.env) h w 0 eq_refl) as [Hreq Hrsp].
  split.
  - destruct (Hreq Sample.postForm _ eq_refl eq_refl) as (_ & Hc & _ & Hend).
    split; [|exact (Hc eq_refl eq_refl eq_refl)].
    exact (Hend Go.EOF (Sample.streamAt [] 200 "u1") eq_refl).
  - destruct (Hrsp Sample.ok200 _ eq_refl eq_refl) as (_ & _ & Hend).
    exact (Hend Go.EOF (Sample.streamAt [] 250 "u2") eq_refl).
Defined.

(** C6, as stated, fails on its second part: at level [url] the record of
    the response [200 OK] is the empty text, which is not a line. *)
Lemma level_url_response_without_line :
  let h := Sample.handler (Sample.fastResp "url") in
  let w := Sample.world [] [Sample.response Sample.ok200 250 "u2"] 100 in
  List.filter isSend (from_option trace [] (handleResponse 2 h w)) =
    [EvSend DirResponse 1 250 ""] /\
  ~ (forall seq stamp text,
       In (EvSend DirResponse seq stamp text)
          (from_option trace [] (handleResponse 2 h w)) ->
       exists line, text = line +:+ Go.newline).
Proof.
  intros h w. split; [reflexivity|].
  intros H.
  destruct (H 1 250 "" (or_intror (or_introl eq_refl))) as [line Hline].
  destruct line; discriminate Hline.
Qed.

Lemma requestParseError_text {B : Type} (err : Go.error) :
  (if isEOF err then [] else [EvStderr (B := B) (requestParseError err)]) =
  match err with
  | Go.EOF | Go.ErrUnexpectedEOF => []
  | Go.ErrOther msg =>
      [EvStderr ("Error parsing HTTP requests: " +:+ msg +:+ Go.newline)]
  end.
Proof.
  destruct err as [| |msg]; [reflexivity | reflexivity |].
  cbn [isEOF]. unfold requestParseError, Go.Sprintln.
  cbn [Go.joinSpace Go.Error]. rewrite ?append_assoc. reflexivity.
Qed.

Lemma responseParseError_text {B : Type} (err : Go.error) (client : string) :
  (if isEOF err then []
   else [EvStderr (B := B) (responseParseError err client)]) =
  match err with
  | Go.EOF | Go.ErrUnexpectedEOF => []
  | Go.ErrOther msg =>
      [EvStderr ("Error parsing HTTP response: " +:+ msg +:+ " " +:+
                 client +:+ Go.newline)]
  end.
Proof.
  destruct err as [| |msg]; [reflexivity | reflexivity |].
  cbn [isEOF]. unfold responseParseError, Go.Sprintln.
  cbn [Go.joinSpace Go.Error]. rewrite ?append_assoc. reflexivity.
Qed.

(** C8: when the parser returns an error, the loop of that direction
    returns at once, for the request direction and for the response
    direction alike.  Nothing is sent.  On [io.EOF] and on
    [io.ErrUnexpectedEOF] nothing is written to standard error; on any
    other error one line is written, [Error parsing HTTP requests: <err>]
    for requests and [Error parsing HTTP response: <err> <clientID>] for
    responses.  The consumer then finishes with its deferred calls.  A
    loop that returns has logged at most once.  The other direction is
    left as it was: from the state in which the failed loop ends, the
    other loop needs the same fuel, adds the same events and reaches the
    same state of its side as from the state before. *)
Theorem parse_error_ends_direction {env : Env} (h : HandlerBase) (w : World)
    (n : nat) (err : Go.error) (s1 : Stream) :
  (ReadRequest (requestStream w) = (inr err, s1) ->
   exists w',
     requestLoop (S n) h w = Some w' /\
     requestStream w' = s1 /\
     reqCounter w' = reqCounter w /\
     trace w' = trace w ++
                match err with
                | Go.EOF | Go.ErrUnexpectedEOF => []
                | Go.ErrOther msg =>
                    [EvStderr ("Error parsing HTTP requests: " +:+ msg +:+
                               Go.newline)]
                end /\
     handleRequest (S n) h w =
       Some (setRequest w' (Close (snd (discardAll ReaderBufio s1)))
               (reqCounter w)
               [EvDiscardAll DirRequest ReaderBufio; EvClose DirRequest;
                EvWgDone DirRequest]) /\
     sameResponseSide w w' /\
     forall fuel h',
       sameOutcome sameResponseSide w w'
         (responseLoop fuel h' w) (responseLoop fuel h' w')) /\
  (ReadResponse (responseStream w) = (inr err, s1) ->
   Resp (option_ h) = true ->
   exists w',
     responseLoop (S n) h w = Some w' /\
     responseStream w' = s1 /\
     rspCounter w' = rspCounter w /\
     trace w' = trace w ++
                match err with
                | Go.EOF | Go.ErrUnexpectedEOF => []
                | Go.ErrOther msg =>
                    [EvStderr ("Error parsing HTTP response: " +:+ msg +:+
                               " " +:+ clientID w +:+ Go.newline)]
                end /\
     handleResponse (S n) h w =
       Some (setResponse w' (Close (snd (discardAll ReaderBufio s1)))
               (rspCounter w)
               [EvDiscardAll DirResponse ReaderBufio; EvClose DirResponse;
                EvWgDone DirResponse]) /\
     sameRequestSide w w' /\
     forall fuel h',
       sameOutcome sameRequestSide w w'
         (requestLoop fuel h' w) (requestLoop fuel h' w')) /\
  (forall fuel w',
     requestLoop fuel h w = Some w' ->
     exists evs, trace w' = trace w ++ evs /\
                 (length (List.filter isStderr evs) <= 1)%nat) /\
  (forall fuel w',
     responseLoop fuel h w = Some w' ->
     exists evs, trace w' = trace w ++ evs /\
                 (length (List.filter isStderr evs) <= 1)%nat).
Proof.
  split; [|split; [|split]].
  - intros Hread. eexists.
    split; [apply (requestLoop_error h w n err s1 Hread)|].
    split; [reflexivity|]. split; [reflexivity|].
    split; [cbn [trace setRequest]; rewrite requestParseError_text;
            reflexivity|].
    split.
    + unfold handleRequest.
      rewrite (requestLoop_error h w n err s1 Hread). simpl.
      destruct (discardAll ReaderBufio s1). reflexivity.
    + assert (Hside : sameResponseSide w
                (setRequest w s1 (reqCounter w)
                   (if isEOF err then []
                    else [EvStderr (requestParseError err)])))
        by (repeat split).
      split; [exact Hside|].
      intros fuel h'. apply responseLoop_local, Hside.
  - intros Hread Hresp. eexists.
    split; [apply (responseLoop_error h w n err s1 Hread)|].
    split; [reflexivity|]. split; [reflexivity|].
    split; [cbn [trace setResponse]; rewrite responseParseError_text;
            reflexivity|].
    split.
    + unfold handleResponse. rewrite Hresp. simpl negb. cbv iota.
      rewrite (responseLoop_error h w n err s1 Hread). simpl.
      destruct (discardAll ReaderBufio s1). reflexivity.
    + assert (Hside : sameRequestSide w
                (setResponse w s1 (rspCounter w)
                   (if isEOF err then []
                    else [EvStderr (responseParseError err (clientID w))])))
        by (repeat split).
      split; [exact Hside|].
      intros fuel h'. apply requestLoop_local, Hside.
  - intros fuel w' H. apply (requestLoop_trace fuel h w w' H).
  - intros fuel w' H. apply (responseLoop_trace fuel h w w' H).
Qed.

Lemma parse_error_ends_direction_witness :
  let h := Sample.handler (Sample.fastResp "url") in
  let bad := Go.ErrOther "malformed HTTP request" in
  let badRsp := Go.ErrOther "malformed HTTP response" in
  let w := Sample.world
             [Sample.failure bad 200 "u1";
              Sample.request Sample.getX 300 "u2"]
             [Sample.responseFailure badRsp 250 "u3";
              Sample.response Sample.noContent204 350 "u4"] 100 in
  let cut := Sample.world
               [Sample.failure Go.ErrUnexpectedEOF 200 "u1"]
               [Sample.responseFailure Go.ErrUnexpectedEOF 250 "u3"] 100 in
  (exists w',
     requestLoop 1 h w = Some w' /\
     trace w' = [EvStderr ("Error parsing HTTP requests: " +:+
                           "malformed HTTP request" +:+ Go.newline)] /\
     handleRequest 1 h w =
       Some (setRequest w'
               (Script.Close (snd (Script.discardAll ReaderBufio
                                     (requestStream w')))) 0
               [EvDiscardAll DirRequest ReaderBufio; EvClose DirRequest;
                EvWgDone DirRequest]) /\
     sameOutcome sameResponseSide w w'
       (responseLoop 2 h w) (responseLoop 2 h w')) /\
  (exists w',
     responseLoop 1 h w = Some w' /\
     trace w' = [EvStderr ("Error parsing HTTP response: " +:+
                           "malformed HTTP response" +:+ " " +:+
                           "10.0.0.1:40000" +:+ Go.newline)] /\
     sameOutcome sameRequestSide w w'
       (requestLoop 2 h w) (requestLoop 2 h w')) /\
  (exists w', requestLoop 1 h cut = Some w' /\ trace w' = []) /\
  (exists w', responseLoop 1 h cut = Some w' /\ trace w' = []) /\
  (exists w',
     responseLoop 1 h (Sample.world [] [] 100) = Some w' /\ trace w' = []).
Proof.
  intros h bad badRsp w cut.
  split; [|split; [|split; [|split]]].
  - destruct (parse_error_ends_direction (env := Script.env) h w 0 bad
                (Sample.streamAt [Sample.request Sample.getX 300 "u2"]
                   200 "u1")) as (Hreq & _).
    destruct (Hreq eq_refl)
      as (w' & Hloop & Hstream & _ & Htrace & Hhandle & _ & Hother).
    exists w'. split; [exact Hloop|]. split; [exact Htrace|].
    split; [rewrite Hstream; exact Hhandle | exact (Hother 2%nat h)].
  - destruct (parse_error_ends_direction (env := Script.env) h w 0 badRsp
                (Sample.streamAt
                   [Sample.response Sample.noContent204 350 "u4"]
                   250 "u3")) as (_ & Hrsp & _).
    destruct (Hrsp eq_refl eq_refl)
      as (w' & Hloop & _ & _ & Htrace & _ & _ & Hother).
    exists w'. split; [exact Hloop|]. split; [exact Htrace|].
    exact (Hother 2%nat h).
  - destruct (parse_error_ends_direction (env := Script.env) h cut 0
                Go.ErrUnexpectedEOF (Sample.streamAt [] 200 "u1"))
      as (Hreq & _).
    destruct (Hreq eq_refl) as (w' & Hloop & _ & _ & Htrace & _).
    exists w'. split; [exact Hloop | exact Htrace].
  - destruct (parse_error_ends_direction (env := Script.env) h cut 0
                Go.ErrUnexpectedEOF (Sample.streamAt [] 250 "u3"))
      as (_ & Hrsp & _).
    destruct (Hrsp eq_refl eq_refl) as (w' & Hloop & _ & _ & Htrace & _).
    exists w'. split; [exact Hloop | exact Htrace].
  - destruct (parse_error_ends_direction (env := Script.env) h
                (Sample.world [] [] 100) 0 Go.EOF (Sample.stream [] 100))
      as (_ & Hrsp & _).
    destruct (Hrsp eq_refl eq_refl) as (w' & Hloop & _ & _ & Htrace & _).
    exists w'. split; [exact Hloop | exact Htrace].
Defined.

(** C10: when [Resp] is false the response consumer returns whatever the
    stream holds and however little fuel it is given: it drains the stream
    itself with [discardAll], closes it and signals the wait group, without
    ever calling the parser; it sends no record and writes nothing to
    standard error.  The request side of the connection is left as it was,
    and the request loop runs from the resulting state as from the state
    before. *)
Theorem no_response_without_resp {env : Env} (h : HandlerBase) (w : World)
    (fuel : nat) :
  Resp (option_ h) = false ->
  exists w',
    handleResponse fuel h w = Some w' /\
    responseStream w' =
      Close (snd (discardAll ReaderStream (responseStream w))) /\
    rspCounter w' = rspCounter w /\
    trace w' = trace w ++
               [EvDiscardAll DirResponse ReaderStream; EvClose DirResponse;
                EvWgDone DirResponse] /\
    sameRequestSide w w' /\
    forall fuel' h',
      sameOutcome sameRequestSide w w'
        (requestLoop fuel' h' w) (requestLoop fuel' h' w').
Proof.
  intros Hresp. unfold handleResponse. rewrite Hresp. simpl.
  destruct (discardAll ReaderStream (responseStream w)) as [k s].
  eexists. split; [reflexivity|]. simpl.
  repeat (split; [reflexivity|]).
  assert (Hside : sameRequestSide w
            (setResponse w (Close s) (rspCounter w)
               [EvDiscardAll DirResponse ReaderStream; EvClose DirResponse;
                EvWgDone DirResponse])) by (repeat split).
  split; [exact Hside|].
  intros fuel' h'. apply requestLoop_local, Hside.
Qed.

Lemma no_response_without_resp_witness :
  let h := Sample.handler Sample.defaults in
  let w := Sample.world [Sample.request Sample.getX 200 "u1"]
             [Sample.response Sample.ok200 250 "u2";
              Sample.failure (Go.ErrOther "not a response") 260 "u3"] 100 in
  exists w',
    handleResponse 0 h w = Some w' /\
    trace w' = [EvDiscardAll DirResponse ReaderStream; EvClose DirResponse;
                EvWgDone DirResponse] /\
    sameOutcome sameRequestSide w w' (requestLoop 2 h w) (requestLoop 2 h w').
Proof.
  intros h w.
  destruct (no_response_without_resp (env := Script.env) h w 0 eq_refl)
    as (w' & Hh & _ & _ & Ht & _ & Hreq).
  exists w'. split; [exact Hh|]. split; [exact Ht | exact (Hreq 2%nat h)].
Defined.

(** ** Sequence numbers across connections *)

Lemma int32_small (x : Z) :
  -2147483648 <= x < 2147483648 -> Go.int32 x = x.
Proof. intros H. unfold Go.int32. rewrite Z.mod_small; lia. Qed.

Lemma Incr_small (c : Counter) :
  -2147483648 <= c + 1 < 2147483648 -> Incr c = (c + 1, c + 1).
Proof. intros H. unfold Incr. rewrite int32_small by exact H. reflexivity. Qed.

(** At its upper end the counter wraps around. *)
Lemma Incr_wraps : Incr 2147483647 = (-2147483648, -2147483648).
Proof. reflexivity. Qed.

(** *** One consumer on its own

    A consumer that runs undisturbed numbers its records consecutively:
    each record that passes the filter takes the next value of the
    counter, then is sent. *)
Section ConsumerNumbers.
Context {env : Env}.

Lemma sentSeqs_app (a b : list (Event B)) :
  sentSeqs (a ++ b) = sentSeqs a ++ sentSeqs b.
Proof.
  induction a as [|e a IH]; [reflexivity|].
  destruct e; simpl; rewrite ?IH; reflexivity.
Qed.

Lemma sentSeqs_bodyReads (evs : list (Event B)) :
  forallb isBodyRead evs = true -> sentSeqs evs = [].
Proof.
  induction evs as [|e evs IH]; [reflexivity|].
  simpl. intros H. apply andb_true_iff in H as [He Hevs].
  destruct e; try discriminate; simpl; exact (IH Hevs).
Qed.

Lemma count_up (c : Z) (k : nat) :
  map (fun j => c + Z.of_nat j) (seq 1 (S k)) =
  (c + 1) :: map (fun j => c + 1 + Z.of_nat j) (seq 1 k).
Proof.
  simpl. f_equal. rewrite <- seq_shift, map_map.
  apply map_ext. intros j. lia.
Qed.

Lemma requestLoop_numbers (fuel : nat) (h : HandlerBase) (w w' : World) :
  0 <= reqCounter w ->
  reqCounter w + Z.of_nat fuel < 2147483648 ->
  requestLoop fuel h w = Some w' ->
  exists evs k,
    trace w' = trace w ++ evs /\
    sentSeqs evs = map (fun j => reqCounter w + Z.of_nat j) (seq 1 k) /\
    reqCounter w' = reqCounter w + Z.of_nat k /\
    (k < fuel)%nat.
Proof.
  revert w. induction fuel as [|fuel IH]; intros w Hc Hk; [discriminate|].
  simpl. destruct (ReadRequest (requestStream w)) as [[r|err] s1].
  - destruct (requestFiltered (option_ h) r).
    + destruct (discardAll (ReaderBody (Req.Body r)) s1) as [z s2].
      intros H. apply IH in H as (evs & k & Ht & Hs & Hn & Hlt);
        simpl in *; [|lia|lia].
      exists (EvDiscardAll DirRequest (ReaderBody (Req.Body r)) :: evs), k.
      split; [rewrite Ht, <- app_assoc; reflexivity|].
      split; [exact Hs|]. split; [exact Hn | lia].
    + rewrite int32_small by lia.
      intros H. apply IH in H as (evs & k & Ht & Hs & Hn & Hlt);
        simpl in *; [|lia|lia].
      eexists _, (S k).
      split; [rewrite Ht, <- app_assoc; reflexivity|].
      split; [|split; [lia | lia]].
      rewrite !sentSeqs_app, (sentSeqs_bodyReads _ (printRequest_reads _ _ _
                                                      _ _ _)).
      simpl sentSeqs. rewrite Hs, count_up. reflexivity.
  - intros H. injection H as <-. eexists _, O. simpl.
    split; [reflexivity|]. split; [destruct (isEOF err); reflexivity|].
    split; lia.
Qed.

Lemma responseLoop_numbers (fuel : nat) (h : HandlerBase) (w w' : World) :
  0 <= rspCounter w ->
  rspCounter w + Z.of_nat fuel < 2147483648 ->
  responseLoop fuel h w = Some w' ->
  exists evs k,
    trace w' = trace w ++ evs /\
    sentSeqs evs = map (fun j => rspCounter w + Z.of_nat j) (seq 1 k) /\
    rspCounter w' = rspCounter w + Z.of_nat k /\
    (k < fuel)%nat.
Proof.
  revert w. induction fuel as [|fuel IH]; intros w Hc Hk; [discriminate|].
  simpl. destruct (ReadResponse (responseStream w)) as [[r|err] s1].
  - destruct (negb (IntSet_Contains (Status (option_ h)) (Rsp.StatusCode r))).
    + destruct (discardAll (ReaderBody (Rsp.Body r)) s1) as [z s2].
      intros H. apply IH in H as (evs & k & Ht & Hs & Hn & Hlt);
        simpl in *; [|lia|lia].
      exists (EvDiscardAll DirResponse (ReaderBody (Rsp.Body r)) :: evs), k.
      split; [rewrite Ht, <- app_assoc; reflexivity|].
      split; [exact Hs|]. split; [exact Hn | lia].
    + rewrite int32_small by lia.
      intros H. apply IH in H as (evs & k & Ht & Hs & Hn & Hlt);
        simpl in *; [|lia|lia].
      eexists _, (S k).
      split; [rewrite Ht, <- app_assoc; reflexivity|].
      split; [|split; [lia | lia]].
      rewrite !sentSeqs_app, (sentSeqs_bodyReads _ (printResponse_reads _ _ _
                                                      _ _ _)).
      simpl sentSeqs. rewrite Hs, count_up. reflexivity.
  - intros H. injection H as <-. eexists _, O. simpl.
    split; [reflexivity|]. split; [destruct (isEOF err); reflexivity|].
    split; lia.
Qed.

End ConsumerNumbers.

(** *** Several consumers, interleaved *)

Section NumberingFacts.
Import Numbering.

Lemma numbered_nonneg (schedule : list Action) : 0 <= numbered schedule.
Proof.
  induction schedule as [|[i|i] rest IH]; simpl numbered; lia.
Qed.

Lemma inv_init (n : nat) : inv 0 (init n).
Proof.
  unfold inv, init. simpl. split; [lia|].
  split; [intros j q H; inversion H|].
  split.
  { intros i q H. apply lookup_replicate in H as [H _]. discriminate. }
  split.
  { intros i j q H. apply lookup_replicate in H as [H _]. discriminate. }
  split; [constructor|]. intros i. constructor.
Qed.

Lemma seqsOf_snoc (i j : nat) (q : Z) (l : list (nat * Z)) :
  seqsOf i (l ++ [(j, q)]) =
  seqsOf i l ++ (if decide (j = i) then [q] else []).
Proof.
  unfold seqsOf. rewrite filter_app, fmap_app. f_equal.
  rewrite filter_cons. simpl. destruct (decide (j = i)); reflexivity.
Qed.

Lemma elem_of_seqsOf (i : nat) (q : Z) (l : list (nat * Z)) :
  q ∈ seqsOf i l <-> (i, q) ∈ l.
Proof.
  unfold seqsOf. rewrite list_elem_of_fmap. split.
  - intros ([j q'] & -> & H). apply list_elem_of_filter in H as [Hj H].
    simpl in Hj. subst j. exact H.
  - intros H. exists (i, q). split; [reflexivity|].
    apply list_elem_of_filter. split; [reflexivity | exact H].
Qed.

Lemma inv_step (k : Z) (a : Action) (s s' : Sys) :
  inv k s -> k + numbered [a] < 2147483648 -> step a s = Some s' ->
  inv (k + numbered [a]) s'.
Proof.
  intros (Hc & Hsent & Hheld & Huniq & Hnodup & Hsorted) Hk Hstep.
  destruct a as [i|i]; simpl in Hstep, Hk |- *.
  - (* [seq := counter.Incr()] *)
    destruct (consumers s !! i) as [[|q0]|] eqn:Hi; try discriminate.
    injection Hstep as <-. unfold inv. simpl.
    assert (Hlt : (i < length (consumers s))%nat)
      by (eapply lookup_lt_Some; exact Hi).
    rewrite int32_small by lia.
    split; [lia|].
    split; [intros j q H; specialize (Hsent j q H); lia|].
    split.
    { intros i' q H. destruct (decide (i = i')) as [<-|Hne].
      - rewrite list_lookup_insert_eq in H by exact Hlt.
        injection H as <-. split; [lia|].
        intros j q' Hq'. specialize (Hsent j q' Hq'). lia.
      - rewrite list_lookup_insert_ne in H by exact Hne.
        destruct (Hheld i' q H) as [Hq Hbefore]. split; [lia | exact Hbefore]. }
    split.
    { intros i1 i2 q H1 H2.
      destruct (decide (i = i1)) as [<-|Hne1],
               (decide (i = i2)) as [<-|Hne2]; [reflexivity | | |].
      - rewrite list_lookup_insert_eq in H1 by exact Hlt.
        rewrite list_lookup_insert_ne in H2 by exact Hne2.
        injection H1 as <-. destruct (Hheld i2 _ H2) as [Hq _]. lia.
      - rewrite list_lookup_insert_ne in H1 by exact Hne1.
        rewrite list_lookup_insert_eq in H2 by exact Hlt.
        injection H2 as <-. destruct (Hheld i1 _ H1) as [Hq _]. lia.
      - rewrite list_lookup_insert_ne in H1 by exact Hne1.
        rewrite list_lookup_insert_ne in H2 by exact Hne2.
        exact (Huniq i1 i2 q H1 H2). }
    split; [exact Hnodup | exact Hsorted].
  - (* [h.sender.Send(...)] *)
    destruct (consumers s !! i) as [[|q0]|] eqn:Hi; try discriminate.
    injection Hstep as <-. unfold inv. simpl.
    assert (Hlt : (i < length (consumers s))%nat)
      by (eapply lookup_lt_Some; exact Hi).
    destruct (Hheld i q0 Hi) as [Hq0 Hbefore].
    split; [lia|].
    split.
    { intros j q H. apply elem_of_app in H as [H|H]; [exact (Hsent j q H)|].
      apply list_elem_of_singleton in H. injection H as -> ->. exact Hq0. }
    split.
    { intros i' q H.
      destruct (decide (i = i')) as [<-|Hne].
      - rewrite list_lookup_insert_eq in H by exact Hlt. discriminate.
      - rewrite list_lookup_insert_ne in H by exact Hne.
        destruct (Hheld i' q H) as [Hq Hb]. split; [exact Hq|].
        intros j q' Hq'. apply elem_of_app in Hq' as [Hq'|Hq'];
          [exact (Hb j q' Hq')|].
        apply list_elem_of_singleton in Hq'. injection Hq' as -> ->.
        split.
        + intros ->. apply Hne. exact (Huniq i i' q Hi H).
        + intros Heq. exfalso. exact (Hne Heq). }
    split.
    { intros i1 i2 q H1 H2.
      destruct (decide (i = i1)) as [<-|Hne1].
      { rewrite list_lookup_insert_eq in H1 by exact Hlt. discriminate. }
      destruct (decide (i = i2)) as [<-|Hne2].
      { rewrite list_lookup_insert_eq in H2 by exact Hlt. discriminate. }
      rewrite list_lookup_insert_ne in H1 by exact Hne1.
      rewrite list_lookup_insert_ne in H2 by exact Hne2.
      exact (Huniq i1 i2 q H1 H2). }
    split.
    { rewrite fmap_app. simpl. apply NoDup_app.
      split; [exact Hnodup|]. split; [|apply NoDup_singleton].
      intros q Hq Hin. apply list_elem_of_singleton in Hin. subst q.
      apply list_elem_of_fmap in Hq as ([j q'] & Heq & Hq). simpl in Heq.
      subst q'. destruct (Hbefore j q0 Hq) as [Hne _]. apply Hne. reflexivity. }
    intros i'. rewrite seqsOf_snoc.
    destruct (decide (i = i')) as [<-|Hne].
    + apply StronglySorted_app_2; [|apply Hsorted|repeat constructor].
      intros x1 x2 Hx1 Hx2. apply list_elem_of_singleton in Hx2. subst x2.
      apply elem_of_seqsOf in Hx1.
      destruct (Hbefore i x1 Hx1) as [_ Hlt1]. apply Hlt1. reflexivity.
    + rewrite app_nil_r. apply Hsorted.
Qed.

Lemma inv_exec (schedule : list Action) (k : Z) (s s' : Sys) :
  inv k s -> k + numbered schedule < 2147483648 ->
  exec schedule s = Some s' ->
  inv (k + numbered schedule) s'.
Proof.
  revert k s. induction schedule as [|a rest IH]; intros k s Hinv Hk Hexec.
  - simpl in *. injection Hexec as <-. rewrite Z.add_0_r. exact Hinv.
  - simpl in Hexec. destruct (step a s) as [s1|] eqn:Hstep; [|discriminate].
    simpl in Hexec.
    pose proof (numbered_nonneg rest) as Hrest.
    assert (Hsplit : numbered (a :: rest) = numbered [a] + numbered rest)
      by (destruct a; simpl numbered; lia).
    rewrite Hsplit in Hk |- *. rewrite Z.add_assoc.
    apply (IH _ s1); [|lia|exact Hexec].
    apply (inv_step k a s s1 Hinv); [lia | exact Hstep].
Qed.

Lemma exec_app (a b : list Action) (s : Sys) :
  exec (a ++ b) s = exec a s ≫= exec b.
Proof.
  revert s. induction a as [|x a IH]; intros s; [reflexivity|].
  simpl. destruct (step x s) as [s1|]; [apply IH | reflexivity].
Qed.

Lemma exec_rounds (k : nat) (c : Z) (l : list (nat * Z)) :
  0 <= c -> c + Z.of_nat k < 2147483648 ->
  exec (rounds k)
    {| counter := c; consumers := [Parsing]; sent := l |} =
  Some {| counter := c + Z.of_nat k; consumers := [Parsing];
          sent := l ++ map (fun j => (0%nat, c + Z.of_nat j)) (seq 1 k) |}.
Proof.
  revert c l. induction k as [|k IH]; intros c l Hc Hk.
  - simpl. rewrite Z.add_0_r, app_nil_r. reflexivity.
  - cbn [rounds exec step consumers lookup list_lookup counter].
    rewrite Incr_small by lia.
    cbn [mbind option_bind step consumers insert list_insert lookup
         list_lookup sent counter].
    rewrite IH by lia.
    replace (c + 1 + Z.of_nat k) with (c + Z.of_nat (S k)) by lia.
    do 2 f_equal. rewrite <- app_assoc. f_equal.
    cbn [seq map app]. f_equal.
    rewrite <- (seq_shift k 1), map_map. apply map_ext. intros j.
    f_equal. lia.
Qed.

(** After 2^31 - 1 records the next number is negative: from then on a
    connection's own records are no longer numbered in increasing order. *)
Lemma counter_wraps (k : nat) :
  Z.of_nat k = 2147483647 ->
  exists s middle,
    exec (rounds k ++ [DoIncr 0; DoSend 0]) (init 1) = Some s /\
    sent s = (0%nat, 1) :: middle ++ [(0%nat, -2147483648)].
Proof.
  intros Hk. destruct k as [|k]; [discriminate|].
  rewrite exec_app. unfold init. cbn [replicate].
  rewrite exec_rounds by lia.
  cbn [mbind option_bind exec step consumers lookup list_lookup counter].
  rewrite Z.add_0_l, Hk.
  cbn [Incr Go.int32 mbind option_bind exec step consumers insert list_insert
       lookup list_lookup sent counter].
  eexists _, _. split; [reflexivity|].
  cbn [sent app seq map]. reflexivity.
Qed.

Lemma counter_wraps_reachable :
  exists schedule s middle,
    exec schedule (init 1) = Some s /\
    sent s = (0%nat, 1) :: middle ++ [(0%nat, -2147483648)].
Proof.
  destruct (counter_wraps (Z.to_nat 2147483647)
              (Z2Nat.id 2147483647 ltac:(lia))) as (s & middle & H).
  exact (ex_intro _ _ (ex_intro _ s (ex_intro _ middle H))).
Qed.

End NumberingFacts.

(** C4 (as the code has it): in every run with any number of connections,
    as long as fewer than 2^31 records of the direction have been numbered
    (the counter is an [int32]), no two records sent carry the same
    sequence number, and the records of one connection are sent with
    strictly increasing sequence numbers. *)
Theorem sequence_numbers_per_connection (n : nat)
    (schedule : list Numbering.Action) (s : Numbering.Sys) :
  Numbering.exec schedule (Numbering.init n) = Some s ->
  Numbering.numbered schedule < 2147483648 ->
  NoDup (Numbering.sent s).*2 /\
  forall i, StronglySorted Z.lt (Numbering.seqsOf i (Numbering.sent s)).
Proof.
  intros Hexec Hk.
  destruct (inv_exec schedule 0 (Numbering.init n) s (inv_init n) Hk Hexec)
    as (_ & _ & _ & _ & Hnodup & Hsorted).
  split; [exact Hnodup | exact Hsorted].
Qed.

Lemma sequence_numbers_per_connection_witness :
  let schedule :=
    [Numbering.DoIncr 0; Numbering.DoIncr 1; Numbering.DoSend 1;
     Numbering.DoIncr 1; Numbering.DoSend 0; Numbering.DoSend 1]%nat in
  let s := {| Numbering.counter := 3;
              Numbering.consumers := [Numbering.Parsing; Numbering.Parsing];
              Numbering.sent := [(1%nat, 2); (0%nat, 1); (1%nat, 3)] |} in
  Numbering.exec schedule (Numbering.init 2) = Some s /\
  NoDup (Numbering.sent s).*2 /\
  forall i, StronglySorted Z.lt (Numbering.seqsOf i (Numbering.sent s)).
Proof.
  intros schedule s.
  split; [reflexivity|].
  apply (sequence_numbers_per_connection 2 schedule s); reflexivity.
Defined.

(** C4, as stated, fails across connections: two connections, one request
    each; the first consumer takes number 1, the second takes number 2 and
    sends, then the first sends.  The record sent later carries the
    smaller number. *)
Lemma sequence_numbers_out_of_order :
  let schedule :=
    [Numbering.DoIncr 0; Numbering.DoIncr 1; Numbering.DoSend 1;
     Numbering.DoSend 0]%nat in
  Numbering.sent <$> Numbering.exec schedule (Numbering.init 2) =
    Some [(1%nat, 2); (0%nat, 1)] /\
  ~ (forall s,
       Numbering.exec schedule (Numbering.init 2) = Some s ->
       StronglySorted Z.lt (Numbering.sent s).*2).
Proof.
  intros schedule. split; [reflexivity|].
  intros H. specialize (H _ eq_refl).
  apply StronglySorted_inv in H as [_ H].
  apply Forall_inv in H. vm_compute in H. discriminate H.
Qed.

(** * Further properties *)

(** ** A whole run of [loop] *)

(** Every TCP/IP packet received before the end of the run is handed to
    the assembler exactly once, with its own flow, segment and timestamp,
    every tick flushes what is older than the idle time, all in the order
    received; the calls made before are kept, and nothing received after
    the nil packet or the cancellation has any effect. *)
Theorem loop_calls (events : list SelectEvent) (idle : Z)
    (calls : list AssemblerCall) :
  fst (loop events idle calls) =
  calls ++ omap (callOf idle) (beforeStop events).
Proof. rewrite loop_unfold_run. reflexivity. Qed.

(** [loop] returns exactly when it receives the nil packet or the
    cancellation; packets and ticks alone keep it waiting, and the type
    assertion on the transport layer never fails. *)
Theorem loop_returns (events : list SelectEvent) (idle : Z)
    (calls : list AssemblerCall) :
  (snd (loop events idle calls) = Returned <->
   In (RecvPacket None) events \/ In CtxDone events) /\
  (snd (loop events idle calls) = Waiting <->
   ~ In (RecvPacket None) events /\ ~ In CtxDone events) /\
  snd (loop events idle calls) <> Panicked.
Proof.
  rewrite loop_unfold_run. cbn [snd].
  assert (Hstop : existsb isStop events = true <->
                  In (RecvPacket None) events \/ In CtxDone events).
  { rewrite existsb_exists. split.
    - intros (e & Hin & He). destruct e as [[p|]|now|]; try discriminate;
        [left | right]; exact Hin.
    - intros [H|H]; eexists; (split; [exact H | reflexivity]). }
  destruct (existsb isStop events).
  - split; [|split; [|discriminate]].
    + split; [intros _; apply Hstop; reflexivity | reflexivity].
    + split; [discriminate|]. intros [H1 H2].
      destruct (proj1 Hstop eq_refl); contradiction.
  - split; [|split; [|discriminate]].
    + split; [discriminate|]. intros H. apply Hstop in H. discriminate.
    + split; [|reflexivity]. intros _.
      split; intros H;
        [assert (H' : In (RecvPacket None) events \/ In CtxDone events)
           by (left; exact H)
        |assert (H' : In (RecvPacket None) events \/ In CtxDone events)
           by (right; exact H)];
        apply Hstop in H'; discriminate.
Qed.

(** ** [run] and [main] *)

(** The process panics exactly when the port is above 65536 or the packet
    source does not open, with that error; in both cases neither printer
    nor assembler exists and no packet has been looked at.  Once the source
    is open, nothing the loop receives makes [run] return an error. *)
Theorem main_panics (env : RunEnv) (o : Option) (err : Go.error) :
  main env o = ExitPanic err <->
  (65536 < Port o /\
   err = Go.ErrOther ("ignored invalid port " +:+ Go.itoa (Port o)) /\
   effects (run env o) = []) \/
  (Port o <= 65536 /\ openError env = Some err /\
   effects (run env o) =
     [createPacketsChan (Input o) (Host o) (Ip o) (Port o)]).
Proof.
  unfold main, run.
  destruct (Z.gtb_spec (Port o) 65536) as [Hgt|Hle]; cbn.
  - split.
    + intros H. injection H as <-. left. repeat split. exact Hgt.
    + intros [(_ & -> & _) | (Hle & _)]; [reflexivity | lia].
  - destruct (openError env) as [e|]; cbn.
    + split.
      * intros H. injection H as <-. right. repeat split. exact Hle.
      * intros [(Hgt & _) | (_ & H & _)]; [lia|]. injection H as <-.
        reflexivity.
    + destruct (loop (selectEvents env) (Idle o) []) as [calls []]; cbn;
        (split; [discriminate|]);
        (intros [(Hgt & _) | (_ & H & _)]; [lia | discriminate]).
Qed.

(** For every port of the TCP range the assembler filters on that very
    port: the conversion to [uint16] loses nothing. *)
Theorem run_filter_port (env : RunEnv) (o : Option) :
  0 <= Port o <= 65535 ->
  openError env = None ->
  effects (run env o) !! 2%nat =
  Some (newTCPAssembler (Fast o) (Human o) (Chan o) (Ip o) (Port o)).
Proof.
  intros Hp Hopen. unfold run.
  destruct (Z.gtb_spec (Port o) 65536) as [Hgt|_]; [lia|].
  rewrite Hopen. unfold Go.uint16. rewrite Z.mod_small by lia.
  destruct (loop (selectEvents env) (Idle o) []) as [calls []]; reflexivity.
Qed.

Lemma run_filter_port_witness :
  effects (run {| openError := None; selectEvents := [CtxDone] |}
             (Sample.withPort Sample.defaults 8080)) !! 2%nat =
  Some (newTCPAssembler false false 10240 "" 8080).
Proof.
  apply (run_filter_port {| openError := None; selectEvents := [CtxDone] |}
           (Sample.withPort Sample.defaults 8080)).
  - simpl. lia.
  - reflexivity.
Defined.

(** ** The consumers: numbering, ending, order *)

Section ConsumerFacts.
Context {env : Env}.

Implicit Types (h : HandlerBase) (w : World).

Lemma bodyReads_not_final (evs : list (Event B)) :
  forallb isBodyRead evs = true -> List.filter isFinal evs = [].
Proof.
  induction evs as [|e evs IH]; [reflexivity|].
  simpl. intros H. apply andb_true_iff in H as [He Hevs].
  destruct e; try discriminate; simpl; exact (IH Hevs).
Qed.

Lemma requestLoop_no_final fuel h w w' :
  requestLoop fuel h w = Some w' ->
  exists evs, trace w' = trace w ++ evs /\ List.filter isFinal evs = [].
Proof.
  revert w. induction fuel as [|fuel IH]; intros w; [discriminate|].
  simpl. destruct (ReadRequest (requestStream w)) as [[r|err] s1].
  - destruct (requestFiltered (option_ h) r).
    + destruct (discardAll (ReaderBody (Req.Body r)) s1) as [k s2].
      intros H. destruct (IH _ H) as (evs & Ht & Hn).
      eexists. split; [rewrite Ht; simpl; rewrite <- app_assoc; reflexivity|].
      simpl. exact Hn.
    + intros H. destruct (IH _ H) as (evs & Ht & Hn).
      eexists. split; [rewrite Ht; simpl; rewrite <- app_assoc; reflexivity|].
      rewrite !List.filter_app, Hn.
      rewrite (bodyReads_not_final _ (printRequest_reads h r _ _ _ s1)).
      reflexivity.
  - intros H. injection H as <-.
    eexists. split; [reflexivity|]. destruct (isEOF err); reflexivity.
Qed.

Lemma responseLoop_no_final fuel h w w' :
  responseLoop fuel h w = Some w' ->
  clientID w' = clientID w /\
  exists evs, trace w' = trace w ++ evs /\ List.filter isFinal evs = [].
Proof.
  revert w. induction fuel as [|fuel IH]; intros w; [discriminate|].
  simpl. destruct (ReadResponse (responseStream w)) as [[r|err] s1].
  - destruct (negb (IntSet_Contains (Status (option_ h)) (Rsp.StatusCode r))).
    + destruct (discardAll (ReaderBody (Rsp.Body r)) s1) as [k s2].
      intros H. destruct (IH _ H) as (Hc & evs & Ht & Hn).
      split; [exact Hc|].
      eexists. split; [rewrite Ht; simpl; rewrite <- app_assoc; reflexivity|].
      simpl. exact Hn.
    + intros H. destruct (IH _ H) as (Hc & evs & Ht & Hn).
      split; [exact Hc|].
      eexists. split; [rewrite Ht; simpl; rewrite <- app_assoc; reflexivity|].
      rewrite !List.filter_app, Hn.
      rewrite (bodyReads_not_final _ (printResponse_reads h r _ _ _ s1)).
      reflexivity.
  - intros H. injection H as <-. split; [reflexivity|].
    eexists. split; [reflexivity|]. destruct (isEOF err); reflexivity.
Qed.

Lemma handleRequest_ends fuel h w w' :
  handleRequest fuel h w = Some w' ->
  exists evs s,
    trace w' = trace w ++ evs ++
               [EvDiscardAll DirRequest ReaderBufio; EvClose DirRequest;
                EvWgDone DirRequest] /\
    List.filter isFinal evs = [] /\
    requestStream w' = Close s.
Proof.
  unfold handleRequest.
  destruct (requestLoop fuel h w) as [w1|] eqn:Hloop; [|discriminate].
  cbn. destruct (discardAll ReaderBufio (requestStream w1)) as [k s].
  intros H. injection H as <-.
  destruct (requestLoop_no_final fuel h w w1 Hloop) as (evs & Ht & Hn).
  exists evs, s. cbn. rewrite Ht, <- app_assoc. repeat split. exact Hn.
Qed.

Lemma handleResponse_ends fuel h w w' :
  handleResponse fuel h w = Some w' ->
  exists evs rd s,
    trace w' = trace w ++ evs ++
               [EvDiscardAll DirResponse rd; EvClose DirResponse;
                EvWgDone DirResponse] /\
    List.filter isFinal evs = [] /\
    responseStream w' = Close s.
Proof.
  unfold handleResponse. destruct (negb (Resp (option_ h))).
  - destruct (discardAll ReaderStream (responseStream w)) as [k s].
    intros H. injection H as <-. exists [], ReaderStream, s.
    repeat split.
  - destruct (responseLoop fuel h w) as [w1|] eqn:Hloop; [|discriminate].
    cbn. destruct (discardAll ReaderBufio (responseStream w1)) as [k s].
    intros H. injection H as <-.
    destruct (responseLoop_no_final fuel h w w1 Hloop) as (_ & evs & Ht & Hn).
    exists evs, ReaderBufio, s. cbn. rewrite Ht, <- app_assoc.
    repeat split. exact Hn.
Qed.

Lemma handleRequest_frame fuel h w w' :
  handleRequest fuel h w = Some w' ->
  sameResponseSide w w' /\ exists evs, trace w' = trace w ++ evs.
Proof.
  unfold handleRequest.
  destruct (requestLoop fuel h w) as [w1|] eqn:Hloop; [|discriminate].
  cbn. destruct (discardAll ReaderBufio (requestStream w1)) as [k s].
  intros H. injection H as <-.
  destruct (requestLoop_trace fuel h w w1 Hloop) as (Hside & evs & Ht & _).
  split; [exact Hside|].
  eexists. cbn. rewrite Ht, <- app_assoc. reflexivity.
Qed.

Lemma handleResponse_frame fuel h w w' :
  handleResponse fuel h w = Some w' ->
  sameRequestSide w w' /\ clientID w' = clientID w /\
  exists evs, trace w' = trace w ++ evs.
Proof.
  unfold handleResponse. destruct (negb (Resp (option_ h))).
  - destruct (discardAll ReaderStream (responseStream w)) as [k s].
    intros H. injection H as <-. repeat split. eexists. reflexivity.
  - destruct (responseLoop fuel h w) as [w1|] eqn:Hloop; [|discriminate].
    cbn. destruct (discardAll ReaderBufio (responseStream w1)) as [k s].
    intros H. injection H as <-.
    destruct (responseLoop_trace fuel h w w1 Hloop) as (Hside & evs & Ht & _).
    destruct (responseLoop_no_final fuel h w w1 Hloop) as (Hc & _).
    split; [exact Hside|]. split; [exact Hc|].
    eexists. cbn. rewrite Ht, <- app_assoc. reflexivity.
Qed.

Lemma handleRequest_local fuel h w1 w2 :
  sameRequestSide w1 w2 ->
  sameOutcome sameRequestSide w1 w2
    (handleRequest fuel h w1) (handleRequest fuel h w2).
Proof.
  intros Hs. pose proof (requestLoop_local fuel h w1 w2 Hs) as Hl.
  unfold handleRequest.
  destruct (requestLoop fuel h w1) as [a|], (requestLoop fuel h w2) as [b|];
    cbn in *; try exact Hl; try contradiction.
  destruct Hl as ((Hstream & Hcount) & evs & Ha & Hb).
  rewrite <- Hstream, <- Hcount.
  destruct (discardAll ReaderBufio (requestStream a)) as [k s]. cbn.
  split; [split; reflexivity|].
  eexists. rewrite Ha, Hb, <- !app_assoc. split; reflexivity.
Qed.

Lemma handleResponse_local fuel h w1 w2 :
  sameResponseSide w1 w2 ->
  sameOutcome sameResponseSide w1 w2
    (handleResponse fuel h w1) (handleResponse fuel h w2).
Proof.
  intros Hs. pose proof (responseLoop_local fuel h w1 w2 Hs) as Hl.
  destruct Hs as (Hs1 & Hs2 & Hs3).
  unfold handleResponse. destruct (negb (Resp (option_ h))).
  - rewrite <- Hs1, <- Hs2.
    destruct (discardAll ReaderStream (responseStream w1)) as [k s]. cbn.
    split; [repeat split; exact Hs3|].
    eexists. split; reflexivity.
  - destruct (responseLoop fuel h w1) as [a|],
             (responseLoop fuel h w2) as [b|]; cbn in *; try exact Hl;
      try contradiction.
    destruct Hl as ((Hstream & Hcount & Hclient) & evs & Ha & Hb).
    rewrite <- Hstream, <- Hcount.
    destruct (discardAll ReaderBufio (responseStream a)) as [k s]. cbn.
    split; [repeat split; exact Hclient|].
    eexists. rewrite Ha, Hb, <- !app_assoc. split; reflexivity.
Qed.

End ConsumerFacts.

(** A consumer that runs undisturbed, short of the wrap-around of its
    counter, numbers the records it sends consecutively from the counter's
    value onwards; a message that is dropped by the filter takes no number,
    and the counter ends at the number of the last record sent. *)
Theorem consumer_numbers {env : Env} (fuel : nat) (h : HandlerBase)
    (w w' : World) :
  (0 <= reqCounter w ->
   reqCounter w + Z.of_nat fuel < 2147483648 ->
   requestLoop fuel h w = Some w' ->
   exists evs k,
     trace w' = trace w ++ evs /\
     sentSeqs evs = map (fun j => reqCounter w + Z.of_nat j) (seq 1 k) /\
     reqCounter w' = reqCounter w + Z.of_nat k) /\
  (0 <= rspCounter w ->
   rspCounter w + Z.of_nat fuel < 2147483648 ->
   responseLoop fuel h w = Some w' ->
   exists evs k,
     trace w' = trace w ++ evs /\
     sentSeqs evs = map (fun j => rspCounter w + Z.of_nat j) (seq 1 k) /\
     rspCounter w' = rspCounter w + Z.of_nat k).
Proof.
  split; intros Hc Hk Hloop.
  - destruct (requestLoop_numbers fuel h w w' Hc Hk Hloop)
      as (evs & k & Ht & Hs & Hn & _).
    exists evs, k. repeat split; assumption.
  - destruct (responseLoop_numbers fuel h w w' Hc Hk Hloop)
      as (evs & k & Ht & Hs & Hn & _).
    exists evs, k. repeat split; assumption.
Qed.

Lemma consumer_numbers_witness :
  let h := Sample.handler (Sample.withMethod (Sample.fastResp "url") "POST") in
  let w := Sample.world
             [Sample.request Sample.postForm 200 "u1";
              Sample.request Sample.getX 300 "u2";
              Sample.request Sample.postForm 400 "u3"] [] 100 in
  exists w',
    requestLoop 4 h w = Some w' /\
    exists evs k,
      trace w' = trace w ++ evs /\
      sentSeqs evs = map (fun j => 0 + Z.of_nat j) (seq 1 k) /\
      reqCounter w' = 0 + Z.of_nat k.
Proof.
  intros h w. eexists. split; [reflexivity|].
  apply (proj1 (consumer_numbers (env := Script.env) 4 h w _));
    [cbn; lia | cbn; lia | reflexivity].
Defined.

(** Whatever it reads, a consumer that returns has, as the last things it
    did and at no other time, drained what is left of its stream, closed
    the stream and signalled the wait group, once each and in this order. *)
Theorem consumer_ends {env : Env} (fuel : nat) (h : HandlerBase)
    (w w' : World) :
  (handleRequest fuel h w = Some w' ->
   exists evs s,
     trace w' = trace w ++ evs ++
                [EvDiscardAll DirRequest ReaderBufio; EvClose DirRequest;
                 EvWgDone DirRequest] /\
     List.filter isFinal evs = [] /\
     requestStream w' = Close s) /\
  (handleResponse fuel h w = Some w' ->
   exists evs rd s,
     trace w' = trace w ++ evs ++
                [EvDiscardAll DirResponse rd; EvClose DirResponse;
                 EvWgDone DirResponse] /\
     List.filter isFinal evs = [] /\
     responseStream w' = Close s).
Proof.
  split.
  - apply handleRequest_ends.
  - apply handleResponse_ends.
Qed.

Lemma consumer_ends_witness :
  let h := Sample.handler (Sample.fastResp "header") in
  let w := Sample.world
             [Sample.request Sample.postForm 200 "u1";
              Sample.failure (Go.ErrOther "malformed") 300 "u2"]
             [Sample.response Sample.ok200 250 "u3"] 100 in
  (exists w' evs s,
     handleRequest 3 h w = Some w' /\
     trace w' = trace w ++ evs ++
                [EvDiscardAll DirRequest ReaderBufio; EvClose DirRequest;
                 EvWgDone DirRequest] /\
     List.filter isFinal evs = [] /\
     requestStream w' = Close s) /\
  (exists w' evs rd s,
     handleResponse 3 h w = Some w' /\
     trace w' = trace w ++ evs ++
                [EvDiscardAll DirResponse rd; EvClose DirResponse;
                 EvWgDone DirResponse] /\
     List.filter isFinal evs = [] /\
     responseStream w' = Close s).
Proof.
  intros h w. split.
  - eexists.
    destruct (proj1 (consumer_ends (env := Script.env) 3 h w _) eq_refl)
      as (evs & s & H).
    exists evs, s. split; [reflexivity | exact H].
  - eexists.
    destruct (proj2 (consumer_ends (env := Script.env) 3 h w _) eq_refl)
      as (evs & rd & s & H).
    exists evs, rd, s. split; [reflexivity | exact H].
Defined.

(** The two consumers of a connection do not depend on each other's
    order.  If the request consumer and then the response consumer return,
    so do the response consumer and then the request consumer, with the
    same fuel; and if the response consumer and then the request consumer
    return, so do the request consumer and then the response consumer.
    In both cases each consumer adds the same events as in the other
    order, and the streams, the counters and the client identifier come
    out the same. *)
Theorem consumers_commute {env : Env} (fuelReq fuelRsp : nat)
    (hq hs : HandlerBase) (w : World) :
  (forall w1 w12,
     handleRequest fuelReq hq w = Some w1 ->
     handleResponse fuelRsp hs w1 = Some w12 ->
     exists w2 w21 evsReq evsRsp,
       handleResponse fuelRsp hs w = Some w2 /\
       handleRequest fuelReq hq w2 = Some w21 /\
       trace w12 = trace w ++ evsReq ++ evsRsp /\
       trace w21 = trace w ++ evsRsp ++ evsReq /\
       requestStream w21 = requestStream w12 /\
       responseStream w21 = responseStream w12 /\
       reqCounter w21 = reqCounter w12 /\
       rspCounter w21 = rspCounter w12 /\
       clientID w21 = clientID w12) /\
  (forall w2 w21,
     handleResponse fuelRsp hs w = Some w2 ->
     handleRequest fuelReq hq w2 = Some w21 ->
     exists w1 w12 evsReq evsRsp,
       handleRequest fuelReq hq w = Some w1 /\
       handleResponse fuelRsp hs w1 = Some w12 /\
       trace w12 = trace w ++ evsReq ++ evsRsp /\
       trace w21 = trace w ++ evsRsp ++ evsReq /\
       requestStream w21 = requestStream w12 /\
       responseStream w21 = responseStream w12 /\
       reqCounter w21 = reqCounter w12 /\
       rspCounter w21 = rspCounter w12 /\
       clientID w21 = clientID w12).
Proof.
  split.
  - intros w1 w12 Hq Hs.
    destruct (handleRequest_frame _ _ _ _ Hq) as (Hside1 & evsReq & Ht1).
    destruct (handleResponse_frame _ _ _ _ Hs)
      as ((Hrs12 & Hrc12) & Hcl12 & _).
    pose proof (handleResponse_local fuelRsp hs w w1 Hside1) as Hloc.
    rewrite Hs in Hloc.
    destruct (handleResponse fuelRsp hs w) as [w2|] eqn:Hs2;
      [|contradiction].
    cbn in Hloc.
    destruct Hloc as ((Hss & Hsc & Hscl) & evsRsp & Ht2 & Ht12).
    destruct (handleResponse_frame _ _ _ _ Hs2) as (Hside2 & Hcl2 & _).
    pose proof (handleRequest_local fuelReq hq w w2 Hside2) as Hloc.
    rewrite Hq in Hloc.
    destruct (handleRequest fuelReq hq w2) as [w21|] eqn:Hq2;
      [|contradiction].
    cbn in Hloc. destruct Hloc as ((Hqs & Hqc) & evsReq' & Ht1' & Ht21).
    destruct (handleRequest_frame _ _ _ _ Hq2) as ((Hf1 & Hf2 & Hf3) & _).
    assert (evsReq' = evsReq) as ->.
    { rewrite Ht1 in Ht1'. apply app_inv_head in Ht1'. symmetry.
      exact Ht1'. }
    exists w2, w21, evsReq, evsRsp.
    split; [reflexivity|]. split; [exact Hq2|].
    split; [rewrite Ht12, Ht1, <- app_assoc; reflexivity|].
    split; [rewrite Ht21, Ht2, <- app_assoc; reflexivity|].
    repeat split; congruence.
  - intros w2 w21 Hs2 Hq2.
    destruct (handleResponse_frame _ _ _ _ Hs2)
      as (Hside2 & Hcl2 & evsRsp & Ht2).
    destruct (handleRequest_frame _ _ _ _ Hq2) as ((Hf1 & Hf2 & Hf3) & _).
    pose proof (handleRequest_local fuelReq hq w w2 Hside2) as Hloc.
    rewrite Hq2 in Hloc.
    destruct (handleRequest fuelReq hq w) as [w1|] eqn:Hq;
      [|contradiction].
    cbn in Hloc. destruct Hloc as ((Hqs & Hqc) & evsReq & Ht1 & Ht21).
    destruct (handleRequest_frame _ _ _ _ Hq) as (Hside1 & _).
    pose proof (handleResponse_local fuelRsp hs w w1 Hside1) as Hloc.
    rewrite Hs2 in Hloc.
    destruct (handleResponse fuelRsp hs w1) as [w12|] eqn:Hs;
      [|contradiction].
    cbn in Hloc.
    destruct Hloc as ((Hss & Hsc & Hscl) & evsRsp' & Ht2' & Ht12).
    destruct (handleResponse_frame _ _ _ _ Hs)
      as ((Hrs12 & Hrc12) & Hcl12 & _).
    assert (evsRsp' = evsRsp) as ->.
    { rewrite Ht2 in Ht2'. apply app_inv_head in Ht2'. symmetry.
      exact Ht2'. }
    exists w1, w12, evsReq, evsRsp.
    split; [reflexivity|]. split; [exact Hs|].
    split; [rewrite Ht12, Ht1, <- app_assoc; reflexivity|].
    split; [rewrite Ht21, Ht2, <- app_assoc; reflexivity|].
    repeat split; congruence.
Qed.

Lemma consumers_commute_witness :
  let h := Sample.handler (Sample.fastResp "url") in
  let w := Sample.world [Sample.request Sample.getX 200 "u1"]
             [Sample.response Sample.noContent204 250 "u2"] 100 in
  (exists w1 w12,
     handleRequest 2 h w = Some w1 /\
     handleResponse 2 h w1 = Some w12 /\
     exists w2 w21 evsReq evsRsp,
       handleResponse 2 h w = Some w2 /\
       handleRequest 2 h w2 = Some w21 /\
       trace w12 = trace w ++ evsReq ++ evsRsp /\
       trace w21 = trace w ++ evsRsp ++ evsReq /\
       requestStream w21 = requestStream w12 /\
       responseStream w21 = responseStream w12 /\
       reqCounter w21 = reqCounter w12 /\
       rspCounter w21 = rspCounter w12 /\
       clientID w21 = clientID w12) /\
  (exists w2 w21,
     handleResponse 2 h w = Some w2 /\
     handleRequest 2 h w2 = Some w21 /\
     exists w1 w12 evsReq evsRsp,
       handleRequest 2 h w = Some w1 /\
       handleResponse 2 h w1 = Some w12 /\
       trace w12 = trace w ++ evsReq ++ evsRsp /\
       trace w21 = trace w ++ evsRsp ++ evsReq /\
       requestStream w21 = requestStream w12 /\
       responseStream w21 = responseStream w12 /\
       reqCounter w21 = reqCounter w12 /\
       rspCounter w21 = rspCounter w12 /\
       clientID w21 = clientID w12).
Proof.
  intros h w. split.
  - let r1 := eval vm_compute in (handleRequest 2 h w) in
    match r1 with
    | Some ?w1 =>
        let r2 := eval vm_compute in (handleResponse 2 h w1) in
        match r2 with
        | Some ?w12 =>
            assert (Hq : handleRequest 2 h w = Some w1)
              by (vm_compute; reflexivity);
            assert (Hs : handleResponse 2 h w1 = Some w12)
              by (vm_compute; reflexivity);
            exists w1, w12; split; [exact Hq|]; split; [exact Hs|];
            exact (proj1 (consumers_commute (env := Script.env) 2 2 h h w)
                     w1 w12 Hq Hs)
        end
    end.
  - let r1 := eval vm_compute in (handleResponse 2 h w) in
    match r1 with
    | Some ?w2 =>
        let r2 := eval vm_compute in (handleRequest 2 h w2) in
        match r2 with
        | Some ?w21 =>
            assert (Hs : handleResponse 2 h w = Some w2)
              by (vm_compute; reflexivity);
            assert (Hq : handleRequest 2 h w2 = Some w21)
              by (vm_compute; reflexivity);
            exists w2, w21; split; [exact Hs|]; split; [exact Hq|];
            exact (proj2 (consumers_commute (env := Script.env) 2 2 h h w)
                     w2 w21 Hs Hq)
        end
    end.
Defined.

(** [handle]: when both consumers of a connection have returned, the wait
    group has been signalled as many times as [handle] added to it, so
    [finish] can return; both streams are closed, and their closing and
    the signals are all the consumers did of the kind. *)
Theorem handle_balances_wait_group {env : Env} (fuelReq fuelRsp : nat)
    (o : Option) (src dst : Endpoint) (w w' : World) (added : Z) :
  handle fuelReq fuelRsp o src dst w = Some (added, w') ->
  exists evs s1 s2,
    trace w' = trace w ++ evs /\
    Z.of_nat (length (List.filter isWgDone evs)) = added /\
    List.filter isFinal evs =
      [EvClose DirRequest; EvWgDone DirRequest;
       EvClose DirResponse; EvWgDone DirResponse] /\
    requestStream w' = Close s1 /\
    responseStream w' = Close s2.
Proof.
  unfold handle.
  destruct (handleRequest fuelReq _ w) as [w1|] eqn:Hq; [|discriminate].
  cbn. destruct (handleResponse fuelRsp _ w1) as [w2|] eqn:Hs;
    [|discriminate].
  cbn. intros H. injection H as <- <-.
  destruct (handleRequest_ends _ _ _ _ Hq) as (e1 & s1 & Ht1 & Hn1 & Hc1).
  destruct (handleResponse_ends _ _ _ _ Hs)
    as (e2 & rd & s2 & Ht2 & Hn2 & Hc2).
  destruct (handleResponse_frame _ _ _ _ Hs) as ((Hrs & _) & _).
  assert (Hwg : forall l : list (Event B),
            List.filter isFinal l = [] -> List.filter isWgDone l = []).
  { induction l as [|e l IH]; [reflexivity|]. simpl.
    destruct e; simpl; try discriminate; exact IH. }
  eexists _, s1, s2.
  split; [rewrite Ht2, Ht1, <- !app_assoc; reflexivity|].
  split.
  { rewrite !List.filter_app, (Hwg _ Hn1), (Hwg _ Hn2). reflexivity. }
  split.
  { rewrite !List.filter_app, Hn1, Hn2. reflexivity. }
  split; [rewrite <- Hrs; exact Hc1 | exact Hc2].
Qed.

Lemma handle_balances_wait_group_witness :
  let o := Sample.fastResp "url" in
  let w := Sample.world [Sample.request Sample.getX 200 "u1"]
             [Sample.response Sample.noContent204 250 "u2"] 100 in
  exists w',
    handle 2 2 o (src Sample.key0) (dst Sample.key0) w = Some (2, w') /\
    exists evs s1 s2,
      trace w' = trace w ++ evs /\
      Z.of_nat (length (List.filter isWgDone evs)) = 2 /\
      List.filter isFinal evs =
        [EvClose DirRequest; EvWgDone DirRequest;
         EvClose DirResponse; EvWgDone DirResponse] /\
      requestStream w' = Close s1 /\
      responseStream w' = Close s2.
Proof.
  intros o w.
  let r := eval vm_compute in
             (handle 2 2 o (src Sample.key0) (dst Sample.key0) w) in
  match r with
  | Some (_, ?w') =>
      assert (Hh : handle 2 2 o (src Sample.key0) (dst Sample.key0) w =
                   Some (2, w')) by (vm_compute; reflexivity);
      exists w'; split; [exact Hh|];
      exact (handle_balances_wait_group (env := Script.env) 2 2 o
               (src Sample.key0) (dst Sample.key0) w w' 2 Hh)
  end.
Defined.

(** ** The method filter and the documented list *)

Lemma prefix_append (a b : string) : String.prefix a (a +:+ b) = true.
Proof.
  induction a as [|x a IH]; [destruct b; reflexivity|].
  change (String.prefix (String x a) (String x (a +:+ b)) = true).
  cbn [String.prefix].
  destruct (ascii_dec x x) as [_|Hne]; [exact IH | congruence].
Qed.

Lemma Contains_unfold (s substr : string) :
  Go.Contains s substr =
  String.prefix substr s ||
  match s with
  | EmptyString => false
  | String _ s' => Go.Contains s' substr
  end.
Proof. destruct s; reflexivity. Qed.

Lemma Contains_append (pre substr post : string) :
  Go.Contains (pre +:+ substr +:+ post) substr = true.
Proof.
  induction pre as [|x pre IH].
  - change ("" +:+ substr +:+ post) with (substr +:+ post).
    rewrite Contains_unfold, prefix_append. reflexivity.
  - rewrite Contains_unfold.
    change (String x pre +:+ substr +:+ post)
      with (String x (pre +:+ substr +:+ post)).
    cbv iota. rewrite IH. apply orb_true_r.
Qed.

Lemma splitComma_substring (s current m : string) :
  In m (Documented.splitComma s current) ->
  exists pre post, current +:+ s = pre +:+ m +:+ post.
Proof.
  revert current. induction s as [|c s IH]; intros current.
  - simpl. intros [<-|[]]. exists "", "". rewrite append_nil_r. reflexivity.
  - cbn [Documented.splitComma]. destruct (Ascii.eqb c ",") eqn:Hc.
    + intros [<-|Hin].
      * exists "", (String c s). reflexivity.
      * destruct (IH "" Hin) as (pre & post & Heq).
        change ("" +:+ s) with s in Heq.
        exists (current +:+ String c pre), post.
        rewrite append_assoc.
        change (String c pre +:+ m +:+ post)
          with (String c (pre +:+ m +:+ post)).
        rewrite <- Heq. reflexivity.
    + intros Hin. destruct (IH _ Hin) as (pre & post & Heq).
      exists pre, post. rewrite <- Heq, append_assoc. reflexivity.
Qed.

(** The method filter errs on one side only: a request whose method is one
    of the methods listed in the option is never dropped for its method;
    when it is dropped, it is for its host or its URI. *)
Theorem listed_method_passes {env : Env} (o : Option) (r : Req.Request B) :
  Documented.methodListed (Method o) (Req.Method r) = true ->
  Go.Contains (Method o) (Req.Method r) = true /\
  (requestFiltered o r = true ->
   (Host o <> "" /\ wildcardMatch (Req.Host r) (Host o) = false) \/
   (Uri o <> "" /\ wildcardMatch (Req.RequestURI r) (Uri o) = false)).
Proof.
  intros Hl. unfold Documented.methodListed in Hl.
  apply existsb_exists in Hl as (m & Hin & Hm).
  apply String.eqb_eq in Hm. subst m.
  destruct (splitComma_substring _ _ _ Hin) as (pre & post & Heq).
  change ("" +:+ Method o) with (Method o) in Heq.
  assert (Hc : Go.Contains (Method o) (Req.Method r) = true)
    by (rewrite Heq; apply Contains_append).
  split; [exact Hc|].
  intros Hf. apply requestFiltered_spec in Hf as [H|[H|[_ H]]];
    [left; exact H | right; exact H | congruence].
Qed.

Lemma listed_method_passes_witness :
  Go.Contains "GET,POST" "POST" = true /\
  (requestFiltered (Sample.withMethod Sample.defaults "GET,POST")
     Sample.postForm = true ->
   ("" <> "" /\ wildcardMatch "a" "" = false) \/
   ("" <> "" /\ wildcardMatch "/form" "" = false)).
Proof.
  apply (listed_method_passes (env := Script.env)
           (Sample.withMethod Sample.defaults "GET,POST") Sample.postForm).
  reflexivity.
Defined.

(** ** Level [header], and empty records *)

Lemma append_newline_nonempty (a : string) : a +:+ Go.newline <> "".
Proof. destruct a; discriminate. Qed.

(** At level [header] a body is never printed.  The record of a message
    with a body ends with the size note, which carries the number of bytes
    the drain of the body returned (and a space before its comma); a
    request body is drained once, a response body a second time on return,
    the note reporting the first drain. *)
Theorem header_level {env : Env} (h : HandlerBase) :
  Level (option_ h) = "header" ->
  (forall r t u seq s,
     let p := printRequest h r t u seq
                {| buffer := ""; strm := s; reads := [] |} in
     let body := ReaderBody (Req.Body r) in
     List.filter isPrintBody (reads p) = [] /\
     (requestHasBody r = true ->
      reads p = [EvDiscardAll DirRequest body] /\
      strm p = snd (discardAll body s) /\
      exists front,
        buffer p =
        front +:+ Go.newline +:+ "// body size: " +:+
        Go.itoa (fst (discardAll body s)) +:+
        " , set [level = all] to display http body" +:+ Go.newline)) /\
  (Resp (option_ h) = true ->
   forall r t u seq s,
     let p := printResponse h r t u seq
                {| buffer := ""; strm := s; reads := [] |} in
     let body := ReaderBody (Rsp.Body r) in
     List.filter isPrintBody (reads p) = [] /\
     (responseHasBody r = true ->
      reads p = [EvDiscardAll DirResponse body; EvDiscardAll DirResponse body] /\
      strm p = snd (discardAll body (snd (discardAll body s))) /\
      exists front,
        buffer p =
        front +:+ Go.newline +:+ "// body size: " +:+
        Go.itoa (fst (discardAll body s)) +:+
        " , set [level = all] to display http body" +:+ Go.newline)).
Proof.
  intros Hl.
  assert (Hnote : forall n front,
            front +:+ Go.Sprintln (bodySizeNote n) =
            front +:+ Go.newline +:+ "// body size: " +:+ Go.itoa n +:+
            " , set [level = all] to display http body" +:+ Go.newline).
  { intros n front. unfold Go.Sprintln, bodySizeNote. cbn [Go.joinSpace].
    rewrite !append_assoc. reflexivity. }
  split.
  - intros r t u seq s p body. subst p body.
    unfold printRequest, discardAllP. rewrite Hl. cbn [String.eqb Ascii.eqb
      Bool.eqb]. cbv iota.
    destruct (requestHasBody r); cbn [strm reads buffer writeLine
      printHeaderP].
    + destruct (discardAll (ReaderBody (Req.Body r)) s) as [n s'] eqn:Hd.
      cbn. split; [reflexivity|]. intros _.
      split; [reflexivity|]. split; [reflexivity|].
      eexists. apply Hnote.
    + split; [reflexivity | discriminate].
  - intros Hr r t u seq s p body. subst p body.
    destruct (printResponse_deferred h r t u seq
                {| buffer := ""; strm := s; reads := [] |})
      as (Hb & Hs & Hrd).
    rewrite Hb, Hs, Hrd. clear Hb Hs Hrd.
    unfold printResponseBody, discardAllP. rewrite Hr, Hl.
    cbn [negb orb String.eqb Ascii.eqb Bool.eqb]. cbv iota.
    match goal with
    | |- context [fold_left ?f ?hs ?q] =>
        destruct (writeRawHeaders hs q) as (Hs3 & Hr3 & _);
        set (p3 := fold_left f hs q) in *
    end.
    cbn in Hs3, Hr3.
    destruct (responseHasBody r).
    + rewrite Hs3.
      destruct (discardAll (ReaderBody (Rsp.Body r)) s) as [n s'] eqn:Hd.
      cbn. rewrite Hr3. cbn.
      split; [reflexivity|]. intros _.
      split; [reflexivity|]. split; [reflexivity|].
      eexists. apply Hnote.
    + rewrite Hr3. cbn. split; [reflexivity | discriminate].
Qed.

Lemma header_level_witness :
  let h := Sample.handler (Sample.fastResp "header") in
  let s := Sample.streamAt [] 200 "u1" in
  let p := printRequest h Sample.postForm 200 "u1" 1
             {| buffer := ""; strm := s; reads := [] |} in
  let q := printResponse h Sample.ok200 200 "u1" 1
             {| buffer := ""; strm := s; reads := [] |} in
  (reads p = [EvDiscardAll DirRequest (ReaderBody "k=v")] /\
   exists front,
     buffer p =
     front +:+ Go.newline +:+ "// body size: " +:+ "3" +:+
     " , set [level = all] to display http body" +:+ Go.newline) /\
  (reads q = [EvDiscardAll DirResponse (ReaderBody "abc");
              EvDiscardAll DirResponse (ReaderBody "abc")] /\
   exists front,
     buffer q =
     front +:+ Go.newline +:+ "// body size: " +:+ "3" +:+
     " , set [level = all] to display http body" +:+ Go.newline).
Proof.
  intros h s p q.
  destruct (header_level (env := Script.env) h eq_refl) as [Hq Hs].
  split.
  - destruct (Hq Sample.postForm 200 "u1" 1 s) as [_ H].
    destruct (H eq_refl) as (Hr & _ & Hb). split; [exact Hr | exact Hb].
  - destruct (Hs eq_refl Sample.ok200 200 "u1" 1 s) as [_ H].
    destruct (H eq_refl) as (Hr & _ & Hb). split; [exact Hr | exact Hb].
Defined.

(** The record of a request is never empty; the record of a response is
    empty exactly when the level is [url] (or [Resp] is not set, in which
    case the response consumer does not print at all). *)
Theorem empty_records {env : Env} (h : HandlerBase) (rq : Req.Request B)
    (rs : Rsp.Response B) (t : Time) (u : string) (seq : Z) (s : Stream) :
  buffer (printRequest h rq t u seq
            {| buffer := ""; strm := s; reads := [] |}) <> "" /\
  (buffer (printResponse h rs t u seq
             {| buffer := ""; strm := s; reads := [] |}) = "" <->
   Resp (option_ h) = false \/ Level (option_ h) = "url").
Proof.
  split.
  - destruct (String.eqb (Level (option_ h)) "url") eqn:Hl.
    + unfold printRequest. rewrite Hl. cbn. apply append_newline_nonempty.
    + destruct (printRequest_buffer h rq t u seq s Hl) as [rest Hb].
      rewrite Hb. unfold Go.Sprintln, requestBanner. cbn. discriminate.
  - destruct (printResponse_deferred h rs t u seq
                {| buffer := ""; strm := s; reads := [] |}) as (Hb & _ & _).
    destruct (Resp (option_ h)) eqn:Hr;
      [destruct (String.eqb (Level (option_ h)) "url") eqn:Hl|].
    + rewrite Hb. unfold printResponseBody. rewrite Hr, Hl. cbn.
      apply String.eqb_eq in Hl. split; [right; exact Hl | reflexivity].
    + destruct (printResponse_buffer h rs t u seq s Hr Hl) as [rest Hb'].
      rewrite Hb'. unfold Go.Sprintln, responseBanner. cbn.
      apply String.eqb_neq in Hl.
      split; [discriminate | intros [H|H]; [discriminate | contradiction]].
    + rewrite Hb. unfold printResponseBody. rewrite Hr. cbn.
      split; [left; reflexivity | reflexivity].
Qed.

(** ** The replay client *)

Section ReplayFacts.
Import Replay.
Context {net : Net}.

Lemma Header_Get_Set (h : HeaderMap) (key value : string) :
  Header_Get (Header_Set h key value) key = value.
Proof.
  unfold Header_Get, Header_Set, HeaderMap in *.
  rewrite lookup_insert_eq. reflexivity.
Qed.

(** What [Send] does is nothing at all, or one logged round trip. *)
Lemma Send_cases (c : HTTPClient) (data : string) :
  (snd (Send c data) = [] /\ fst (fst (Send c data)) = None /\
   (forall req, ReadRequest data = inl req ->
      snd (fst (Send c data)) = None /\
      (http.Method req = "CONNECT" \/
       (Methods (Config c) <> "" /\
        Go.Contains (Methods (Config c)) (http.Method req) = false) \/
       Header_Get (http.Header req) marker = "1")) /\
   (forall err, ReadRequest data = inr err ->
      snd (fst (Send c data)) = Some err)) \/
  (exists req,
     ReadRequest data = inl req /\
     http.Method req <> "CONNECT" /\
     (Methods (Config c) = "" \/
      Go.Contains (Methods (Config c)) (http.Method req) = true) /\
     Header_Get (http.Header req) marker <> "1" /\
     let out := outgoing c req in
     let rsp := fst (Do (Client c) out) in
     Send c data =
     ((Some {| Method := http.Method req;
               URL := URL_String (http.URL out);
               ResponseBody :=
                 match rsp with Some r => ReadCloseBody r | None => "" end;
               StatusCode :=
                 match rsp with Some r => http.StatusCode r | None => 0 end;
               Cost := elapsed out |},
       snd (Do (Client c) out)),
      [LogRequest out (Verbose (Config c)); ClientDo out;
       LogResponse rsp (Verbose (Config c))])).
Proof.
  unfold Send. destruct (ReadRequest data) as [req|err].
  2: { left. split; [reflexivity|]. split; [reflexivity|].
       split; [intros r H; discriminate H|].
       intros e H. injection H as <-. reflexivity. }
  unfold http.MethodConnect.
  destruct (String.eqb (http.Method req) "CONNECT") eqn:Hc.
  { left. apply String.eqb_eq in Hc.
    split; [reflexivity|]. split; [reflexivity|].
    split; [|intros e H; discriminate H].
    intros r H. injection H as <-. split; [reflexivity|]. left. exact Hc. }
  destruct (negb (String.eqb (Methods (Config c)) "") &&
            negb (Go.Contains (Methods (Config c)) (http.Method req)))
    eqn:Hm.
  { left. apply andb_true_iff in Hm as [Hm1 Hm2].
    apply negb_true_iff in Hm1, Hm2. apply String.eqb_neq in Hm1.
    split; [reflexivity|]. split; [reflexivity|].
    split; [|intros e H; discriminate H].
    intros r H. injection H as <-. split; [reflexivity|].
    right. left. split; assumption. }
  destruct (String.eqb (Header_Get (http.Header req) marker) "1") eqn:Hk.
  { left. apply String.eqb_eq in Hk.
    split; [reflexivity|]. split; [reflexivity|].
    split; [|intros e H; discriminate H].
    intros r H. injection H as <-. split; [reflexivity|].
    right. right. exact Hk. }
  right. exists req. apply String.eqb_neq in Hc, Hk.
  split; [reflexivity|]. split; [exact Hc|].
  split.
  { apply andb_false_iff in Hm as [Hm|Hm]; apply negb_false_iff in Hm.
    - left. apply String.eqb_eq in Hm. exact Hm.
    - right. exact Hm. }
  split; [exact Hk|].
  cbv zeta. destruct (Do (Client c) (outgoing c req)) as [rsp e]. reflexivity.
Qed.

End ReplayFacts.

Section ReplayProperties.
Import Replay.

(** Every request the client sends has passed the three tests and is the
    parsed one rewritten for the base URL: its method is not CONNECT, even
    when the method filter lists it, and occurs in the filter when there is
    one; it carries the marker header with value 1, the host and scheme of
    the base URL, an empty request URI and no [Close]; its method, path,
    body and every other header are those of the captured request.  It is
    logged before it is sent, and nothing else is sent. *)
Theorem sent_request {net : Net} (c : HTTPClient) (data : string) (out : http.Request) :
  In (ClientDo out) (snd (Send c data)) ->
  exists req,
    ReadRequest data = inl req /\
    snd (Send c data) =
      [LogRequest out (Verbose (Config c)); ClientDo out;
       LogResponse (fst (Do (Client c) out)) (Verbose (Config c))] /\
    http.Method out = http.Method req /\
    http.Method out <> "CONNECT" /\
    (Methods (Config c) = "" \/
     Go.Contains (Methods (Config c)) (http.Method out) = true) /\
    Header_Get (http.Header out) marker = "1" /\
    (forall k, k <> marker -> http.Header out !! k = http.Header req !! k) /\
    http.Host out = url.Host (BaseURL (Config c)) /\
    url.Host (http.URL out) = url.Host (BaseURL (Config c)) /\
    url.Scheme (http.URL out) = url.Scheme (BaseURL (Config c)) /\
    url.Path (http.URL out) = url.Path (http.URL req) /\
    http.RequestURI out = "" /\
    http.Close out = false /\
    http.Body out = http.Body req.
Proof.
  intros Hin.
  destruct (Send_cases c data) as [(Hnil & _) | (req & Hr & Hc & Hm & Hk & Hs)].
  { rewrite Hnil in Hin. destruct Hin. }
  cbv zeta in Hs. rewrite Hs in Hin |- *. cbn [snd] in Hin |- *.
  destruct Hin as [H|[H|[H|[]]]]; try discriminate. injection H as <-.
  exists req. split; [exact Hr|]. split; [reflexivity|].
  split; [reflexivity|]. split; [exact Hc|]. split; [exact Hm|].
  split; [apply Header_Get_Set|].
  split.
  { intros k Hne. cbn [outgoing http.Header].
    unfold Header_Set, HeaderMap in *. apply lookup_insert_ne.
    congruence. }
  repeat split.
Qed.

Lemma sent_request_witness :
  let c := NewHTTPClient (sampleConfig "GET,POST") in
  let out := outgoing c (sampleRequest "GET" "/x" false) in
  exists req,
    ReadRequest (Net := sampleNet) "GET /x HTTP/1.1" = inl req /\
    snd (Send (net := sampleNet) c "GET /x HTTP/1.1") =
      [LogRequest out ""; ClientDo out;
       LogResponse (fst (Do (Net := sampleNet) (Client c) out)) ""] /\
    http.Method out = http.Method req /\
    http.Method out <> "CONNECT" /\
    ("GET,POST" = "" \/ Go.Contains "GET,POST" (http.Method out) = true) /\
    Header_Get (http.Header out) marker = "1" /\
    (forall k, k <> marker -> http.Header out !! k = http.Header req !! k) /\
    http.Host out = "b:8080" /\
    url.Host (http.URL out) = "b:8080" /\
    url.Scheme (http.URL out) = "http" /\
    url.Path (http.URL out) = url.Path (http.URL req) /\
    http.RequestURI out = "" /\
    http.Close out = false /\
    http.Body out = http.Body req.
Proof.
  intros c out.
  apply (sent_request (net := sampleNet) c "GET /x HTTP/1.1" out).
  right. left. reflexivity.
Defined.

(** No loop: every request the client sends carries the marker header
    with value 1, and captured data whose parsed request carries the
    marker of a request that was sent is never sent again, by this client
    or another, whatever its method, request URI and other fields are and
    whatever the method filter of the client is; it is skipped without
    effect and without error. *)
Theorem sent_request_not_replayed {net : Net} (c c' : HTTPClient) (data data' : string)
    (out back : http.Request) :
  In (ClientDo out) (snd (Send c data)) ->
  ReadRequest data' = inl back ->
  Header_Get (http.Header back) marker =
    Header_Get (http.Header out) marker ->
  Header_Get (http.Header out) marker = "1" /\
  Send c' data' = ((None, None), []).
Proof.
  intros Hin Hread Hsame.
  assert (Hmark : Header_Get (http.Header out) marker = "1").
  { destruct (Send_cases c data)
      as [(Hnil & _) | (req & _ & _ & _ & _ & Hs)].
    { rewrite Hnil in Hin. destruct Hin. }
    cbv zeta in Hs. rewrite Hs in Hin. cbn [snd] in Hin.
    destruct Hin as [H|[H|[H|[]]]]; try discriminate. injection H as <-.
    apply Header_Get_Set. }
  split; [exact Hmark|].
  rewrite Hmark in Hsame.
  unfold Send. rewrite Hread.
  destruct (String.eqb (http.Method back) http.MethodConnect);
    [reflexivity|].
  destruct (_ && _); [reflexivity|].
  rewrite Hsame. reflexivity.
Qed.

Lemma sent_request_not_replayed_witness :
  let c := NewHTTPClient (sampleConfig "") in
  let c' := NewHTTPClient (sampleConfig "GET,POST") in
  let out := outgoing c (sampleRequest "GET" "/x" false) in
  let back := sampleRequest "GET" "/x" true in
  http.RequestURI back = "/x" /\ http.Close back = true /\
  Header_Get (http.Header out) marker = "1" /\
  Send (net := sampleNet) c' "MARKED GET /x HTTP/1.1" = ((None, None), []).
Proof.
  intros c c' out back.
  split; [reflexivity|]. split; [reflexivity|].
  apply (sent_request_not_replayed (net := sampleNet) c c'
           "GET /x HTTP/1.1" "MARKED GET /x HTTP/1.1" out back).
  - right. left. reflexivity.
  - reflexivity.
  - vm_compute. reflexivity.
Defined.

(** What [Send] returns: a result exactly when it has sent the request,
    also when the round trip failed, in which case the result holds the
    method and the URL, status 0 and an empty body, and comes with the
    error; an error without a result exactly when the data does not parse;
    neither of them exactly when the parsed request is skipped. *)
Theorem send_result {net : Net} (c : HTTPClient) (data : string) :
  (is_Some (fst (fst (Send c data))) <-> snd (Send c data) <> []) /\
  (forall err,
     fst (fst (Send c data)) = None /\ snd (fst (Send c data)) = Some err <->
     ReadRequest data = inr err) /\
  (forall r,
     fst (fst (Send c data)) = Some r ->
     exists out,
       In (ClientDo out) (snd (Send c data)) /\
       snd (fst (Send c data)) = snd (Do (Client c) out) /\
       Method r = http.Method out /\
       URL r = URL_String (http.URL out) /\
       match fst (Do (Client c) out) with
       | Some rsp =>
           StatusCode r = http.StatusCode rsp /\
           ResponseBody r = ReadCloseBody rsp
       | None => StatusCode r = 0 /\ ResponseBody r = ""
       end).
Proof.
  destruct (Send_cases c data)
    as [(Hnil & Hnone & Hskip & Herr) | (req & Hr & _ & _ & _ & Hs)].
  - rewrite Hnil, Hnone. split; [|split].
    + split; [intros [x Hx]; discriminate | intros H; contradiction].
    + intros err. split.
      * intros [_ He]. destruct (ReadRequest data) as [req|e] eqn:Hread.
        -- destruct (Hskip req eq_refl) as [Hn _]. congruence.
        -- specialize (Herr e eq_refl). congruence.
      * intros Hread. split; [reflexivity | apply Herr, Hread].
    + intros r H. discriminate.
  - cbv zeta in Hs. rewrite Hs. cbn [fst snd]. split; [|split].
    + split; [discriminate | intros _; eexists; reflexivity].
    + intros err. split; [intros [H _]; discriminate | congruence].
    + intros r H. injection H as <-. exists (outgoing c req). cbn.
      split; [right; left; reflexivity|].
      split; [reflexivity|]. split; [reflexivity|]. split; [reflexivity|].
      destruct (fst (Do (Client c) (outgoing c req))); split; reflexivity.
Qed.

Lemma send_result_witness :
  let c := NewHTTPClient (sampleConfig "") in
  let result := Send (net := sampleNet) c "GET /down HTTP/1.1" in
  exists r,
    fst (fst result) = Some r /\
    exists out,
      In (ClientDo out) (snd result) /\
      snd (fst result) = snd (Do (Net := sampleNet) (Client c) out) /\
      Method r = http.Method out /\
      URL r = URL_String (Net := sampleNet) (http.URL out) /\
      match fst (Do (Net := sampleNet) (Client c) out) with
      | Some rsp =>
          StatusCode r = http.StatusCode rsp /\
          ResponseBody r = ReadCloseBody (Net := sampleNet) rsp
      | None => StatusCode r = 0 /\ ResponseBody r = ""
      end.
Proof.
  intros c result. eexists. split; [reflexivity|].
  apply (send_result (net := sampleNet) c "GET /down HTTP/1.1").
  reflexivity.
Defined.

(** [NewHTTPClient]: the client's timeout is the configuration's and is
    never zero (zero becomes fifteen seconds, written back into the
    configuration); a configuration with a timeout is kept as it is; making
    a client from the resulting configuration gives the same client; the
    certificates are left unchecked exactly when [InsecureVerify] is not
    set. *)
Theorem new_client (c : HTTPClientConfig) :
  let cl := NewHTTPClient c in
  http.Timeout (Client cl) = Timeout (Config cl) /\
  Timeout (Config cl) <> 0 /\
  (Timeout c = 0 -> Timeout (Config cl) = 15000000000) /\
  (Timeout c <> 0 -> Config cl = c) /\
  NewHTTPClient (Config cl) = cl /\
  (http.Transport_ (Client cl) = http.CloneInsecureSkipVerify <->
   InsecureVerify c = false).
Proof.
  assert (Htransport :
            forall b : bool,
              (if negb b then http.CloneInsecureSkipVerify
               else http.DefaultTransport) = http.CloneInsecureSkipVerify <->
              b = false).
  { intros []; cbn; split; intros H; first [discriminate H | reflexivity]. }
  intros cl. subst cl. unfold NewHTTPClient.
  destruct (Z.eqb_spec (Timeout c) 0) as [H0|Hn].
  - cbn [Client Config http.Timeout http.Transport_ withTimeout Timeout
         InsecureVerify].
    split; [reflexivity|]. split; [discriminate|].
    split; [reflexivity|]. split; [intros H; contradiction|].
    split; [reflexivity|]. apply Htransport.
  - cbn [Client Config http.Timeout http.Transport_].
    split; [reflexivity|]. split; [exact Hn|].
    split; [intros H; contradiction|]. split; [reflexivity|].
    split; [|apply Htransport].
    destruct (Z.eqb_spec (Timeout c) 0) as [H0|_]; [contradiction|].
    reflexivity.
Qed.

Lemma new_client_witness :
  Timeout (Config (NewHTTPClient (sampleConfig ""))) = 15000000000 /\
  Config (NewHTTPClient (withTimeout (sampleConfig "") second)) =
    withTimeout (sampleConfig "") second.
Proof.
  split.
  - apply (new_client (sampleConfig "")). reflexivity.
  - apply (new_client (withTimeout (sampleConfig "") second)). discriminate.
Defined.

End ReplayProperties.
